(** * GoLinuxToolkit: systemd job waiting and NetworkManager signal subscriptions

    A shallow embedding of the [systemd] service start/stop code, of the
    [network] device state-change subscription (its signal pump) and of the
    [unix] raw signal subscription, over an abstract D-Bus transport. *)

From stdpp Require Import base option list strings gmap.
From Stdlib Require Import ZArith Lia.

Open Scope Z_scope.
Open Scope string_scope.
Open Scope list_scope.

(** ** The D-Bus library as the code sees it (package [dbus]) *)

Module dbus.

(** [dbus.ObjectPath] is a named string type. *)
Definition ObjectPath := string.

(** The dynamically typed values ([interface{}]) found in message bodies.
    A Go type assertion [x.(uint32)] succeeds exactly on [VUint32]; an
    [interface{} == ObjectPath] comparison is true exactly on an equal
    [VObjectPath]. *)
Inductive Value : Type :=
| VBool (b : bool)
| VByte (n : Z)
| VInt32 (n : Z)
| VUint32 (n : Z)
| VInt64 (n : Z)
| VUint64 (n : Z)
| VString (s : string)
| VObjectPath (p : ObjectPath)
| VVariant (v : Value).

(** [dbus.Signal]. *)
Record Signal : Type := mkSignal {
  Sender : string;
  Path : ObjectPath;
  Name : string;
  Body : list Value
}.

(** Go [error] values: [errors.New], [fmt.Errorf] with its format string
    and arguments kept apart, so that what an error names can be read off. *)
Inductive error : Type :=
| errors_New (text : string)
| fmt_Errorf (format : string) (args : list fmt_arg)
with fmt_arg : Type :=
| arg_string (s : string)
| arg_error (e : error)
| arg_values (vs : list Value).

(** A (value, error) return. *)
Inductive result (A : Type) : Type :=
| Ok (a : A)
| Err (e : error).
Global Arguments Ok {A} a.
Global Arguments Err {A} e.

(** [*dbus.Conn] and [dbus.BusObject]. *)
Record Conn : Type := mkConn { conn_id : nat }.

Record BusObject : Type := mkBusObject {
  obj_conn : Conn;
  obj_dest : string;
  obj_path : ObjectPath
}.

(** [dbus.MatchOption], as far as the code builds them. *)
Inductive MatchOption : Type :=
| WithMatchObjectPath (p : ObjectPath).

(** Durations in nanoseconds, as [time.Duration]. *)
Definition time_Second : Z := 1000000000.

(** The transport: everything the code asks of the bus library.  [W] is
    the state of the world behind the connection. *)
Class Transport (W : Type) : Type := {
  (* dbus.SystemBus() *)
  SystemBus : W -> result Conn * W;
  (* conn.Close(); its error is never looked at *)
  Close : Conn -> W -> W;
  (* conn.Object(dest, path); None is the nil interface *)
  Object : Conn -> string -> ObjectPath -> option BusObject;
  (* conn.BusObject() *)
  BusObjectOf : Conn -> BusObject;
  (* obj.Call(method, 0, args...): call.Err or the reply body *)
  Call : BusObject -> string -> list Value -> W -> result (list Value) * W;
  (* call.Store(&s) into a string / an object path; None when the body does
     not fit, in which case the destination keeps its zero value *)
  StoreString : list Value -> option string;
  StoreObjectPath : list Value -> option ObjectPath;
  (* conn.AddMatchSignal(options...) with its error return *)
  AddMatchSignal : Conn -> list MatchOption -> W -> option error * W;
  (* The signals that a channel registered with conn.Signal hands to a select
     which also waits on a timer of duration d (ns): those received, in
     order, before the select takes the timer case. *)
  SignalsWithin : Conn -> Z -> W -> list Signal * W
}.

(** What the code did on the bus, in order. *)
Inductive Event : Type :=
| EvSystemBus
| EvClose (c : Conn)
| EvCall (o : BusObject) (method : string) (args : list Value)
| EvAddMatchSignal (c : Conn) (opts : list MatchOption)
| EvSignal (c : Conn) (capacity : nat)
| EvLog (format : string) (args : list fmt_arg).

Record St (W : Type) : Type := mkSt {
  world : W;
  events : list Event
}.
Global Arguments mkSt {W} world events.
Global Arguments world {W} s.
Global Arguments events {W} s.

(** State and error: a Go function body run against the transport. *)
Definition M (W A : Type) : Type := St W -> result A * St W.

Global Instance M_ret {W} : MRet (M W) := fun A a st => (Ok a, st).

Global Instance M_bind {W} : MBind (M W) := fun A B f m st =>
  match m st with
  | (Ok a, st') => f a st'
  | (Err e, st') => (Err e, st')
  end.

(** [if err != nil { return ..., wrap(err) }] *)
Definition onErr {W A} (wrap : error -> error) (m : M W A) : M W A :=
  fun st =>
    match m st with
    | (Ok a, st') => (Ok a, st')
    | (Err e, st') => (Err (wrap e), st')
    end.

Definition fail {W A} (e : error) : M W A := fun st => (Err e, st).

Definition emit {W} (ev : Event) : M W unit :=
  fun st => (Ok tt, mkSt (world st) (events st ++ [ev])).

Section Primitives.
Context {W : Type} `{Transport W}.

Definition dbus_SystemBus : M W Conn := fun st =>
    let '(r, w) := SystemBus (world st) in
    (r, mkSt w (events st ++ [EvSystemBus])).

Definition conn_Close (c : Conn) (st : St W) : St W :=
    mkSt (Close c (world st)) (events st ++ [EvClose c]).

(** [defer conn.Close()] around the rest of a function body. *)
Definition defer_Close {A} (c : Conn) (body : M W A) : M W A := fun st =>
    let '(r, st') := body st in (r, conn_Close c st').

Definition obj_Call (o : BusObject) (method : string) (args : list Value)
    : M W (list Value) := fun st =>
    let '(r, w) := Call o method args (world st) in
    (r, mkSt w (events st ++ [EvCall o method args])).

Definition conn_AddMatchSignal (c : Conn) (opts : list MatchOption)
    : St W -> option error * St W := fun st =>
    let '(r, w) := AddMatchSignal c opts (world st) in
    (r, mkSt w (events st ++ [EvAddMatchSignal c opts])).

Definition log_Printf (format : string) (args : list fmt_arg) : M W unit :=
    emit (EvLog format args).
End Primitives.

End dbus.


(** ** Package [systemd]: service status, start and stop *)

Module systemd.
Import dbus.

Definition systemdService : string := "org.freedesktop.systemd1".
Definition systemObjectPath : ObjectPath := "/org/freedesktop/systemd1".
Definition systemdGetUnitMethod : string := "org.freedesktop.systemd1.Manager.GetUnit".
Definition dbusGetPropertyMethod : string := "org.freedesktop.DBus.Properties.Get".
Definition systemdUnit : string := "org.freedesktop.systemd1.Unit".
Definition systemdUnitStateProperty : string := "ActiveState".
Definition systemdStopUnitMethod : string := "org.freedesktop.systemd1.Manager.StopUnit".
Definition systemdStartUnitMethod : string := "org.freedesktop.systemd1.Manager.StartUnit".
Definition systemdJobRemovedMatchRule : string :=
  "type='signal',interface='org.freedesktop.systemd1.Manager',member='JobRemoved'".
Definition dbusAddMatchRuleMethod : string := "org.freedesktop.DBus.AddMatch".
Definition dbusJobRemovedSignalName : string := "org.freedesktop.systemd1.Manager.JobRemoved".

(** [jobPath == targetJobPath], an [interface{}] against a [dbus.ObjectPath]:
    true when the dynamic type is [ObjectPath] and the strings are equal. *)
Definition ifaceEqObjectPath (v : Value) (p : ObjectPath) : bool :=
  match v with
  | VObjectPath q => String.eqb q p
  | _ => false
  end.

(** A [JobRemoved] notification whose embedded job path is [token]. *)
Definition jobRemovedFor (token : ObjectPath) (sig : Signal) : Prop :=
  Name sig = dbusJobRemovedSignalName /\ Body sig !! 1%nat = Some (VObjectPath token).

(** Counting the calls to a bus method in a record of events. *)
Definition isCallTo (method : string) (ev : Event) : bool :=
  match ev with
  | EvCall _ m _ => String.eqb m method
  | _ => false
  end.

Definition callsTo (method : string) (evs : list Event) : nat :=
  length (List.filter (isCallTo method) evs).

(** The calls that change a unit: [StartUnit] and [StopUnit]. *)
Definition mutatingCalls (evs : list Event) : nat :=
  (callsTo systemdStartUnitMethod evs + callsTo systemdStopUnitMethod evs)%nat.

Section WithTransport.
Context {W : Type} `{Transport W}.

Definition getSystemdObject (conn : Conn) : M W BusObject :=
  match Object conn systemdService systemObjectPath with
  | None => fail (fmt_Errorf "failed to get systemd object" [])
  | Some systemdObj => mret systemdObj
  end.

Definition getSystemdUnitObject (conn : Conn) (serviceName : string) : M W BusObject :=
  systemdObj ← onErr (fun err => fmt_Errorf "failed to get systemd obj: %v" [arg_error err])
                 (getSystemdObject conn);
  body ← onErr (fun err => fmt_Errorf "failed to get unit path %s: %v"
                              [arg_string serviceName; arg_error err])
           (obj_Call systemdObj systemdGetUnitMethod [VString serviceName]);
  (* var unitObjectPath dbus.ObjectPath; call.Store(&unitObjectPath) *)
  let unitObjectPath := default "" (StoreObjectPath body) in
  match Object conn systemdService unitObjectPath with
  | None => fail (fmt_Errorf "failed to get unit object" [])
  | Some unitObj => mret unitObj
  end.

Definition getUnitStatus (unitObj : BusObject) : M W string :=
  body ← onErr (fun err => fmt_Errorf "failed to check unit state: %v" [arg_error err])
           (obj_Call unitObj dbusGetPropertyMethod
              [VString systemdUnit; VString systemdUnitStateProperty]);
  (* var state string; call.Store(&state) *)
  mret (default "" (StoreString body)).

Definition checkServiceStatus (conn : Conn) (serviceName : string)
  : M W (BusObject * bool) :=
  unitObj ← getSystemdUnitObject conn serviceName;
  unitState ← getUnitStatus unitObj;
  log_Printf "Service %s has unit state: %s" [arg_string serviceName; arg_string unitState];;
  mret (unitObj,
        negb (String.eqb unitState "inactive" || String.eqb unitState "failed")).

Definition CheckServiceStatus (serviceName : string) : M W bool :=
  conn ← onErr (fun err => fmt_Errorf "failed to connected to the system bus: %v" [arg_error err])
           dbus_SystemBus;
  defer_Close conn (
    '(_, res) ← checkServiceStatus conn serviceName;
    mret res).

Definition doStopService (systemdObj : BusObject) (serviceName : string) : M W ObjectPath :=
  body ← onErr (fun err => fmt_Errorf "failed to stop unit: %v" [arg_error err])
           (obj_Call systemdObj systemdStopUnitMethod [VString serviceName; VString "replace"]);
  mret (default "" (StoreObjectPath body)).

Definition doStartService (systemdObj : BusObject) (serviceName : string) : M W ObjectPath :=
  body ← onErr (fun err => fmt_Errorf "failed to start unit: %v" [arg_error err])
           (obj_Call systemdObj systemdStartUnitMethod [VString serviceName; VString "replace"]);
  mret (default "" (StoreObjectPath body)).

(** The [for { select { ... } }] of [waitJobComplete], over the signals the
    select receives before it takes the timer case: when they are used up
    the timer case is the one taken.  The body pattern stands for
    [len(signal.Body) < 4] followed by [signal.Body[1]] and [signal.Body[3]].
    The signal channel is open throughout here; [closing.waitJobSelect] is
    the loop with the closed channel as its other ending. *)
Fixpoint waitJobLoop (targetJobPath : ObjectPath) (signals : list Signal) : M W string :=
  match signals with
  | [] => fail (errors_New "operation timed out")
  | signal :: rest =>
      if String.eqb (Name signal) "org.freedesktop.systemd1.Manager.JobRemoved" then
        match Body signal with
        | _ :: jobPath :: _ :: jobResult :: _ =>
            if ifaceEqObjectPath jobPath targetJobPath then
              match jobResult with
              | VString jobResult => mret jobResult
              | _ => fail (fmt_Errorf "unexpected jobResult type, got value: %v"
                             [arg_values [jobResult]])
              end
            else waitJobLoop targetJobPath rest
        | _ =>
            log_Printf "[Warning] expected length of job signal body to be at least 4: %v"
              [arg_values (Body signal)];;
            waitJobLoop targetJobPath rest
        end
      else waitJobLoop targetJobPath rest
  end.

Definition waitJobComplete (conn : Conn) (targetJobPath : ObjectPath) : M W string :=
  fun st =>
    (* the AddMatch call's result is dropped *)
    let '(_, st1) := obj_Call (BusObjectOf conn) "org.freedesktop.DBus.AddMatch"
                       [VString systemdJobRemovedMatchRule] st in
    let st2 := mkSt (world st1) (events st1 ++ [EvSignal conn 10]) in
    (* timer := time.NewTimer(5 * time.Second) *)
    let '(signals, w) := SignalsWithin conn (5 * time_Second) (world st2) in
    waitJobLoop targetJobPath signals (mkSt w (events st2)).

(** The signals the select of [waitJobComplete] receives, before its timer of
    five seconds, when the function is entered in state [st]. *)
Definition jobSignals (conn : Conn) (st : St W) : list Signal :=
  fst (SignalsWithin conn (5 * time_Second)
         (world (snd (obj_Call (BusObjectOf conn) "org.freedesktop.DBus.AddMatch"
                        [VString systemdJobRemovedMatchRule] st)))).

Definition StartService (serviceName : string) : M W unit :=
  conn ← onErr (fun err => fmt_Errorf "failed to connected to the system bus: %v" [arg_error err])
           dbus_SystemBus;
  defer_Close conn (
    systemdObj ← onErr (fun err => fmt_Errorf "failed to get systemd obj: %v" [arg_error err])
                   (getSystemdObject conn);
    '(_, res) ← checkServiceStatus conn serviceName;
    if res : bool then
      log_Printf "Unit %s is already running." [arg_string serviceName];;
      mret tt
    else
      startJobPath ← onErr (fun err => fmt_Errorf "error requesting start job for service: %v"
                                         [arg_error err])
                       (doStartService systemdObj serviceName);
      jobResult ← onErr (fun err => fmt_Errorf "waiting for start job failed with error: %v"
                                      [arg_error err])
                    (waitJobComplete conn startJobPath);
      log_Printf "Job to start service %s completed with result: %s"
        [arg_string serviceName; arg_string jobResult];;
      if String.eqb jobResult "done" then mret tt
      else
        '(_, res) ← onErr (fun err =>
                       fmt_Errorf "job to start unit failed and checking state of service gave error: %v"
                         [arg_error err])
                      (checkServiceStatus conn serviceName);
        if negb res then
          fail (fmt_Errorf "job to start service failed (%s) and unit isn't running"
                  [arg_string jobResult])
        else mret tt).

Definition StopService (serviceName : string) : M W unit :=
  conn ← onErr (fun err => fmt_Errorf "failed to connected to the system bus: %v" [arg_error err])
           dbus_SystemBus;
  defer_Close conn (
    systemdObj ← onErr (fun err => fmt_Errorf "failed to get systemd obj: %v" [arg_error err])
                   (getSystemdObject conn);
    '(_, res) ← checkServiceStatus conn serviceName;
    if negb res then
      log_Printf "Unit %s is already stopped." [arg_string serviceName];;
      mret tt
    else
      stopJobPath ← onErr (fun err => fmt_Errorf "error requesting stop job for service: %v"
                                        [arg_error err])
                      (doStopService systemdObj serviceName);
      jobResult ← onErr (fun err => fmt_Errorf "waiting for stop job failed with error: %v"
                                      [arg_error err])
                    (waitJobComplete conn stopJobPath);
      log_Printf "Job to stop service %s completed with result: %s"
        [arg_string serviceName; arg_string jobResult];;
      if String.eqb jobResult "done" then mret tt
      else
        '(_, res) ← onErr (fun err =>
                       fmt_Errorf "job to stop unit failed and checking state of service gave error: %v"
                         [arg_error err])
                      (checkServiceStatus conn serviceName);
        if res : bool then
          fail (fmt_Errorf "job to stop service failed (%s) and unit is still running"
                  [arg_string jobResult])
        else mret tt).

End WithTransport.

End systemd.


(** ** Go channels: a bounded FIFO buffer *)

Module channel.

Record Chan (A : Type) : Type := mkChan {
  capacity : nat;
  queue : list A
}.
Global Arguments mkChan {A} capacity queue.
Global Arguments capacity {A} c.
Global Arguments queue {A} c.

(** [make(chan A, n)] *)
Definition make {A} (n : nat) : Chan A := mkChan n [].

(** [ch <- x]; [None] while the buffer is full (the sender stays blocked). *)
Definition send {A} (ch : Chan A) (x : A) : option (Chan A) :=
  if (length (queue ch) <? capacity ch)%nat
  then Some (mkChan (capacity ch) (queue ch ++ [x]))
  else None.

(** [<-ch]; [None] while the buffer is empty (the receiver stays blocked). *)
Definition recv {A} (ch : Chan A) : option (A * Chan A) :=
  match queue ch with
  | x :: rest => Some (x, mkChan (capacity ch) rest)
  | [] => None
  end.

End channel.


(** ** Package [unix]: the raw signal subscription *)

Module unix.
Import dbus channel.

Definition MethodDbusAddMatchRule : string := "org.freedesktop.DBus.AddMatch".
Definition NetworkManagerInterface : string := "org.freedesktop.NetworkManager".
Definition NetworkManagerObjectPath : ObjectPath := "/org/freedesktop/NetworkManager".
Definition NetworkManagerSignalState : string := "StateChanged".

(** [type DBusSignalSubscription struct { C chan *dbus.Signal; Conn *dbus.Conn }];
    [None] is a nil field. *)
Record DBusSignalSubscription : Type := mkDBusSignalSubscription {
  C : option (Chan Signal);
  Conn : option dbus.Conn
}.

Section WithTransport.
Context {W : Type} `{Transport W}.

(** The method assigns the receiver's fields only on success: the result is
    the receiver after the call. *)
Definition MakeDBusSignalSubscription (ss : DBusSignalSubscription)
    (matchRule : string) (size : nat) : M W DBusSignalSubscription :=
  conn ← onErr (fun err => fmt_Errorf "failed to connect to SystemBus: %v" [arg_error err])
           dbus_SystemBus;
  obj_Call (BusObjectOf conn) MethodDbusAddMatchRule [VString matchRule];;
  let ch := make size in
  emit (EvSignal conn size);;
  mret (mkDBusSignalSubscription (Some ch) (Some conn)).

End WithTransport.

End unix.


(** ** Package [network]: NetworkManager state subscriptions *)

Module network.
Import dbus channel.

Definition NetworkManagerDeviceInterface : string := "org.freedesktop.NetworkManager.Device".
Definition DeviceStateChangedSignal : string :=
  NetworkManagerDeviceInterface +:+ ".StateChanged".

Definition NM_STATE_UNKNOWN : Z := 0.
Definition NM_STATE_ASLEEP : Z := 10.
Definition NM_STATE_DISCONNECTED : Z := 20.
Definition NM_STATE_DISCONNECTING : Z := 30.
Definition NM_STATE_CONNECTING : Z := 40.
Definition NM_STATE_CONNECTED_LOCAL : Z := 50.
Definition NM_STATE_CONNECTED_SITE : Z := 60.
Definition NM_STATE_CONNECTED_GLOBAL : Z := 70.

Definition NM_STATE_MAP : gmap Z string :=
  list_to_map [
    (NM_STATE_UNKNOWN, "Unknown");
    (NM_STATE_ASLEEP, "Asleep");
    (NM_STATE_DISCONNECTED, "Disconnected");
    (NM_STATE_DISCONNECTING, "Disconnecting");
    (NM_STATE_CONNECTING, "Connecting");
    (NM_STATE_CONNECTED_LOCAL, "Connected - Local");
    (NM_STATE_CONNECTED_SITE, "Connected - Site");
    (NM_STATE_CONNECTED_GLOBAL, "Connected - Global")
  ].

(** [C <- (new state, old state, reason)]: a [[3]uint32]. *)
Definition Triple : Type := (Z * Z * Z)%type.

(** Where the pump goroutine stands. *)
Inductive PumpPC : Type :=
| AtSelect
| Sending (values : Triple)
| Returned.

(** A device state-change subscription with everything [Stop], [Join], the
    pump goroutine and the subscriber share: the context, both channels, the
    wait group, and what the subscriber has taken from [C] so far. *)
Record DeviceStateChangeSubscription : Type := mkSub {
  devPath : ObjectPath;
  conn : dbus.Conn;
  ctxDone : bool;
  sigCh : Chan Signal;
  outCh : Chan Triple;
  pump : PumpPC;
  wg : nat;
  taken : list Triple
}.

(** The body of [case sig := <-sigCh]: [Some values] reaches
    [outCh <- values], [None] is a [continue] or a failed [if]. *)
Definition decodeStateChange (devPath : ObjectPath) (sig : Signal) : option Triple :=
  if String.eqb (Path sig) devPath
     && String.eqb (Name sig) DeviceStateChangedSignal
     && (3 <=? length (Body sig))%nat
  then
    match Body sig !! 0%nat with
    | Some (VUint32 v0) =>
        match Body sig !! 1%nat with
        | Some (VUint32 v1) =>
            match Body sig !! 2%nat with
            | Some (VUint32 v2) => Some (v0, v1, v2)
            | _ => None
            end
        | _ => None
        end
    | _ => None
    end
  else None.

(** What can happen next to a subscription. *)
Inductive Label : Type :=
| LStop                     (* the owner calls [Stop()], the context's cancel *)
| LDeliver (sig : Signal)   (* the bus library puts a signal on [sigCh] *)
| LTake                     (* the subscriber receives from [C] *)
| LSelectDone               (* the pump's select takes [case <-ctx.Done()] *)
| LSelectSignal             (* the pump's select takes [case sig := <-sigCh] *)
| LSend.                    (* the pump's [outCh <- values] goes through *)

Section WithTransport.
Context {W : Type} `{Transport W}.

Definition GetNetworkManagerStateSubscription
  : St W -> (unix.DBusSignalSubscription * option error) * St W := fun st =>
  let matchRule :=
    "type='signal',interface='" +:+ unix.NetworkManagerInterface
    +:+ "',member='" +:+ unix.NetworkManagerSignalState
    +:+ "',path='" +:+ unix.NetworkManagerObjectPath +:+ "'" in
  let sub := unix.mkDBusSignalSubscription None None in
  match unix.MakeDBusSignalSubscription sub matchRule 20 st with
  | (Ok sub', st') => ((sub', None), st')
  | (Err err, st') => ((sub, Some err), st')
  end.

Definition deviceStateChangeSubscribe (devPath : ObjectPath)
  : M W (dbus.Conn * Chan Signal) :=
  conn ← onErr (fun err => fmt_Errorf "failed to connect to System Bus: %w" [arg_error err])
           dbus_SystemBus;
  ((fun st =>
    let matchRule := WithMatchObjectPath devPath in
    (* conn.AddMatchSignal(matchRule): the returned error is dropped *)
    let '(_, st1) := conn_AddMatchSignal conn [matchRule] st in
    let c := make 20 in
    (Ok (conn, c), mkSt (world st1) (events st1 ++ [EvSignal conn 20])))
   : M W (dbus.Conn * Chan Signal)).

(** One step of the system around [goParseDeviceStateChangeSignals].  A Go
    select with several ready cases takes any one of them, so [LSelectDone]
    and [LSelectSignal] can both be possible in the same state.  The signal
    channel is open throughout here; [closing.happen] adds its closing by the
    library and the nil then received. *)
Definition step (s : DeviceStateChangeSubscription * St W) (l : Label)
  : option (DeviceStateChangeSubscription * St W) :=
  let '(sub, bus) := s in
  match l with
  | LStop =>
      Some (mkSub (devPath sub) (conn sub) true (sigCh sub) (outCh sub)
              (pump sub) (wg sub) (taken sub), bus)
  | LDeliver sig =>
      match send (sigCh sub) sig with
      | Some ch =>
          Some (mkSub (devPath sub) (conn sub) (ctxDone sub) ch (outCh sub)
                  (pump sub) (wg sub) (taken sub), bus)
      | None => None
      end
  | LTake =>
      match recv (outCh sub) with
      | Some (values, ch) =>
          Some (mkSub (devPath sub) (conn sub) (ctxDone sub) (sigCh sub) ch
                  (pump sub) (wg sub) (taken sub ++ [values]), bus)
      | None => None
      end
  | LSelectDone =>
      match pump sub with
      | AtSelect =>
          if ctxDone sub then
            (* return; then the deferred conn.Close() and wg.Done() *)
            Some (mkSub (devPath sub) (conn sub) (ctxDone sub) (sigCh sub) (outCh sub)
                    Returned (Nat.pred (wg sub)) (taken sub),
                  conn_Close (conn sub) bus)
          else None
      | _ => None
      end
  | LSelectSignal =>
      match pump sub with
      | AtSelect =>
          match recv (sigCh sub) with
          | Some (sig, ch) =>
              Some (mkSub (devPath sub) (conn sub) (ctxDone sub) ch (outCh sub)
                      match decodeStateChange (devPath sub) sig with
                      | Some values => Sending values
                      | None => AtSelect
                      end
                      (wg sub) (taken sub), bus)
          | None => None
          end
      | _ => None
      end
  | LSend =>
      match pump sub with
      | Sending values =>
          match send (outCh sub) values with
          | Some ch =>
              Some (mkSub (devPath sub) (conn sub) (ctxDone sub) (sigCh sub) ch
                      AtSelect (wg sub) (taken sub), bus)
          | None => None
          end
      | _ => None
      end
  end.

Fixpoint run (s : DeviceStateChangeSubscription * St W) (ls : list Label)
  : option (DeviceStateChangeSubscription * St W) :=
  match ls with
  | [] => Some s
  | l :: rest =>
      match step s l with
      | Some s' => run s' rest
      | None => None
      end
  end.

(** The records put on [C] so far, taken or still buffered, oldest first;
    and the one the pump is blocked sending, if any. *)
Definition records (sub : DeviceStateChangeSubscription) : list Triple :=
  taken sub ++ queue (outCh sub).

Definition pending (sub : DeviceStateChangeSubscription) : list Triple :=
  match pump sub with
  | Sending values => [values]
  | _ => []
  end.

(** The signals a schedule hands to the subscription, in order. *)
Definition delivered (ls : list Label) : list Signal :=
  omap (fun l => match l with LDeliver sig => Some sig | _ => None end) ls.

(** The steps taken by the pump goroutine itself. *)
Definition pumpLabel (l : Label) : bool :=
  match l with
  | LSelectDone | LSelectSignal | LSend => true
  | _ => false
  end.

(** A signal the pump has no use for: wrong path, wrong name, fewer than
    three body elements, or one of the first three not a [uint32]. *)
Definition unfit (devPath : ObjectPath) (sig : Signal) : Prop :=
  Path sig <> devPath
  \/ Name sig <> DeviceStateChangedSignal
  \/ (length (Body sig) < 3)%nat
  \/ exists (i : nat) v, (i < 3)%nat /\ Body sig !! i = Some v /\ forall n, v <> VUint32 n.

(** [Join] is [wg.Wait]: it returns once the counter is zero. *)
Definition JoinReturns (sub : DeviceStateChangeSubscription) : bool :=
  Nat.eqb (wg sub) 0.

Definition DeviceStateChangeSubscribe (devPath : ObjectPath)
  : M W DeviceStateChangeSubscription :=
  '(conn, sigCh) ← deviceStateChangeSubscribe devPath;
  let outCh := make 20 in
  (* wg.Add(1); go goParseDeviceStateChangeSignals(...) *)
  mret (mkSub devPath conn false sigCh outCh AtSelect 1 []).

End WithTransport.

End network.


(** ** What [Store] converts

    [call.Store] sets a destination from a reply value when the value's type
    is convertible to the destination's, a variant being opened first.  A
    destination of a string kind ([string], [dbus.ObjectPath]) takes every
    string kind as it is and every integer as the UTF-8 text of that code
    point; it takes no [bool].  The number of values must be the number of
    destinations. *)

Module store.
Import dbus.

Definition byteChar (n : Z) : Ascii.ascii := Ascii.ascii_of_N (Z.to_N n).

(** [string(rune(n))]: the UTF-8 encoding of the code point [n], and of
    U+FFFD when [n] is none. *)
Definition runeString (n : Z) : string :=
  if (n <? 0)%Z || (1114111 <? n)%Z || ((55296 <=? n)%Z && (n <=? 57343)%Z) then
    String (byteChar 239) (String (byteChar 191) (String (byteChar 189) EmptyString))
  else if (n <? 128)%Z then
    String (byteChar n) EmptyString
  else if (n <? 2048)%Z then
    String (byteChar (192 + n / 64)) (String (byteChar (128 + n mod 64)) EmptyString)
  else if (n <? 65536)%Z then
    String (byteChar (224 + n / 4096))
      (String (byteChar (128 + (n / 64) mod 64))
         (String (byteChar (128 + n mod 64)) EmptyString))
  else
    String (byteChar (240 + n / 262144))
      (String (byteChar (128 + (n / 4096) mod 64))
         (String (byteChar (128 + (n / 64) mod 64))
            (String (byteChar (128 + n mod 64)) EmptyString))).

(** One value into a destination of a string kind. *)
Fixpoint intoString (v : Value) : option string :=
  match v with
  | VString s => Some s
  | VObjectPath p => Some p
  | VByte n | VInt32 n | VUint32 n | VInt64 n | VUint64 n => Some (runeString n)
  | VBool _ => None
  | VVariant v => intoString v
  end.

(** A reply body into one destination of a string kind. *)
Definition bodyIntoString (body : list Value) : option string :=
  match body with
  | [v] => intoString v
  | _ => None
  end.

(** [ObjectPath.IsValid]: a slash, or slash-led elements of letters, digits
    and underscores, none of them empty. *)
Definition isMemberChar (c : Ascii.ascii) : bool :=
  let n := Z.of_N (Ascii.N_of_ascii c) in
  ((48 <=? n)%Z && (n <=? 57)%Z) || ((65 <=? n)%Z && (n <=? 90)%Z)
  || ((97 <=? n)%Z && (n <=? 122)%Z) || (n =? 95)%Z.

Definition slash : Ascii.ascii := Ascii.ascii_of_nat 47.

(** The text after a slash: the element that starts there must not be
    empty. *)
Fixpoint validElements (afterSlash : bool) (s : string) : bool :=
  match s with
  | EmptyString => negb afterSlash
  | String c rest =>
      if Ascii.eqb c slash then negb afterSlash && validElements true rest
      else isMemberChar c && validElements false rest
  end.

Definition validPath (p : ObjectPath) : bool :=
  match p with
  | EmptyString => false
  | String c rest =>
      Ascii.eqb c slash
      && match rest with
         | EmptyString => true
         | _ => validElements true rest
         end
  end.

End store.


(** ** A fake transport, to run the code on concrete scenarios *)

Module fake.
Import dbus.

Record World : Type := mkWorld {
  busError : option error;        (* [dbus.SystemBus()] fails with this *)
  matchError : option error;      (* a match rule is rejected with this *)
  activeState : string;           (* [ActiveState] of the unit *)
  afterJob : string;              (* [ActiveState] once a job was requested *)
  jobPath : ObjectPath;           (* token handed out by StartUnit/StopUnit *)
  arrivals : list (Z * Signal);   (* signals, with arrival time in ns *)
  openConns : nat                 (* 1 while the process's one system bus
                                     connection is open, 0 otherwise *)
}.

Definition fakeCall (o : BusObject) (method : string) (args : list Value) (w : World)
  : result (list Value) * World :=
  if String.eqb method "org.freedesktop.systemd1.Manager.GetUnit" then
    (Ok [VObjectPath "/org/freedesktop/systemd1/unit/demo"], w)
  else if String.eqb method "org.freedesktop.DBus.Properties.Get" then
    (Ok [VVariant (VString (activeState w))], w)
  else if String.eqb method "org.freedesktop.systemd1.Manager.StartUnit"
          || String.eqb method "org.freedesktop.systemd1.Manager.StopUnit" then
    (Ok [VObjectPath (jobPath w)],
     mkWorld (busError w) (matchError w) (afterJob w) (afterJob w) (jobPath w)
       (arrivals w) (openConns w))
  else if String.eqb method "org.freedesktop.DBus.AddMatch" then
    (match matchError w with Some e => Err e | None => Ok [] end, w)
  else (Err (errors_New "unknown method"), w).

#[global] Instance fakeTransport : Transport World := {
  SystemBus w :=
    match busError w with
    | Some e => (Err e, w)
    | None =>
        (* the connection is shared: every caller gets the same one *)
        (Ok (mkConn 1),
         mkWorld (busError w) (matchError w) (activeState w) (afterJob w) (jobPath w)
           (arrivals w) 1)
    end;
  Close c w :=
    (* and closing it closes it for all of them *)
    mkWorld (busError w) (matchError w) (activeState w) (afterJob w) (jobPath w)
      (arrivals w) 0;
  Object c dest path := Some (mkBusObject c dest path);
  BusObjectOf c := mkBusObject c "org.freedesktop.DBus" "/org/freedesktop/DBus";
  Call := fakeCall;
  StoreString := store.bodyIntoString;
  StoreObjectPath := store.bodyIntoString;
  AddMatchSignal c opts w := (matchError w, w);
  SignalsWithin c d w :=
    (List.map snd (List.filter (fun a : Z * Signal => (fst a <? d)%Z) (arrivals w)), w)
}.

Definition start (w : World) : St World := mkSt w [].

(** [JobRemoved(id, job, unit, result)] *)
Definition jobRemoved (job : ObjectPath) (unit result : string) : Signal :=
  mkSignal ":1.1" "/org/freedesktop/systemd1"
    "org.freedesktop.systemd1.Manager.JobRemoved"
    [VUint32 1; VObjectPath job; VString unit; VString result].

(** A unit that is [state] now and [after] once a job was requested, with
    the given signals on their way. *)
Definition demo (state after : string) (sigs : list (Z * Signal)) : World :=
  mkWorld None None state after "/job/7" sigs 0.

(** [StateChanged(new, old, reason)] of a device. *)
Definition deviceStateChanged (dev : ObjectPath) (new old reason : Z) : Signal :=
  mkSignal ":1.2" dev "org.freedesktop.NetworkManager.Device.StateChanged"
    [VUint32 new; VUint32 old; VUint32 reason].

(** The stages of a service call on the fake bus. *)
Definition bus : Conn := mkConn 1.
Definition systemdObj : BusObject :=
  mkBusObject bus systemd.systemdService systemd.systemObjectPath.
Definition demoUnit : BusObject :=
  mkBusObject bus systemd.systemdService "/org/freedesktop/systemd1/unit/demo".
Definition connected (w : World) : St World := snd (dbus_SystemBus (start w)).
Definition gotUnit (w : World) : St World :=
  snd (systemd.getSystemdUnitObject bus "demo" (connected w)).
Definition checked (w : World) : St World :=
  snd (systemd.checkServiceStatus bus "demo" (connected w)).
Definition startRequested (w : World) : St World :=
  snd (systemd.doStartService systemdObj "demo" (checked w)).
Definition stopRequested (w : World) : St World :=
  snd (systemd.doStopService systemdObj "demo" (checked w)).

(** A wireless device, a bus on which nothing is wrong, and one that
    rejects every match rule. *)
Definition device : ObjectPath := "/org/freedesktop/NetworkManager/Devices/2".
Definition quiet : World := mkWorld None None "" "" "" [] 0.
Definition rejecting : World :=
  mkWorld None (Some (errors_New "match rule rejected")) "" "" "" [] 0.
Definition unreachable : World :=
  mkWorld (Some (errors_New "no system bus")) None "" "" "" [] 0.

(** The subscription [DeviceStateChangeSubscribe device] hands back. *)
Definition fresh : network.DeviceStateChangeSubscription :=
  network.mkSub device bus false (channel.make 20) (channel.make 20) network.AtSelect 1 [].

(** The manager's own [StateChanged(state)]. *)
Definition managerStateChanged (state : Z) : Signal :=
  mkSignal ":1.2" "/org/freedesktop/NetworkManager"
    "org.freedesktop.NetworkManager.StateChanged" [VUint32 state].

End fake.


(** ** Counting what a function does on the bus *)

Module tally.
Import dbus.

Definition countEv (P : Event -> bool) (evs : list Event) : nat :=
  length (List.filter P evs).

(** [conn.Close()] on the connection [c]. *)
Definition isClose (c : Conn) (ev : Event) : bool :=
  match ev with
  | EvClose c' => Nat.eqb (conn_id c') (conn_id c)
  | _ => false
  end.

(** Running [m] adds at most [k] events of kind [P] to the record, and
    removes none. *)
Definition adds {W A} (P : Event -> bool) (k : nat) (m : M W A) : Prop :=
  forall st,
    (countEv P (events st) <= countEv P (events (snd (m st))))%nat
    /\ (countEv P (events (snd (m st))) <= countEv P (events st) + k)%nat.

(** A [JobRemoved] notification for [token] that [waitJobComplete] acts on:
    it carries the four body elements the loop asks for. *)
Definition decisive (token : ObjectPath) (sig : Signal) : Prop :=
  Name sig = systemd.dbusJobRemovedSignalName
  /\ (4 <= length (Body sig))%nat
  /\ Body sig !! 1%nat = Some (VObjectPath token).

End tally.


(** ** A scripted transport: the bus answers calls from a list *)

Module script.
Import dbus.

Record Script : Type := mkScript {
  busReply : result Conn;                   (* what [dbus.SystemBus()] returns *)
  replies : list (result (list Value));     (* answers to the calls, in order *)
  matchReply : option error;                (* what [AddMatchSignal] returns *)
  incoming : list Signal;                   (* signals received before a timer fires *)
  closes : nat                              (* how often [Close] was called *)
}.

#[global] Instance scriptTransport : Transport Script := {
  SystemBus w := (busReply w, w);
  Close c w := mkScript (busReply w) (replies w) (matchReply w) (incoming w) (S (closes w));
  Object c dest path := Some (mkBusObject c dest path);
  BusObjectOf c := mkBusObject c "org.freedesktop.DBus" "/org/freedesktop/DBus";
  Call o method args w :=
    match replies w with
    | r :: rest => (r, mkScript (busReply w) rest (matchReply w) (incoming w) (closes w))
    | [] => (Err (errors_New "no reply"), w)
    end;
  StoreString := store.bodyIntoString;
  StoreObjectPath := store.bodyIntoString;
  AddMatchSignal c opts w := (matchReply w, w);
  SignalsWithin c d w := (incoming w, w)
}.

Definition bus : Conn := mkConn 1.
Definition systemdObj : BusObject :=
  mkBusObject bus systemd.systemdService systemd.systemObjectPath.
Definition unitPath : ObjectPath := "/org/freedesktop/systemd1/unit/demo".
Definition demoUnit : BusObject := mkBusObject bus systemd.systemdService unitPath.

(** A reachable bus that answers with [rs] and delivers [sigs]. *)
Definition play (rs : list (result (list Value))) (sigs : list Signal) : St Script :=
  mkSt (mkScript (Ok bus) rs None sigs 0) [].

Definition down : St Script :=
  mkSt (mkScript (Err (errors_New "no system bus")) [] None [] 0) [].

End script.


(** ** Package [network]: queries to NetworkManager *)

Module queries.
Import dbus.

(** [dbus.MakeVariant] of the values the code wraps: a [[]byte], a string,
    a bool. *)
Inductive Variant : Type :=
| VariantBytes (bs : list Ascii.ascii)
| VariantString (s : string)
| VariantBool (b : bool).

(** The arguments the code passes to [Call]. *)
Inductive Arg : Type :=
| ArgString (s : string)
| ArgObjectPath (p : ObjectPath)
| ArgOptions (m : gmap string Variant)
| ArgSettings (m : gmap string (gmap string Variant)).

(** How a Go function ends: with a value, with an error, or in a panic (a
    call through a nil interface, an index out of range). *)
Inductive outcome (A : Type) : Type :=
| Val (a : A)
| Fail (e : error)
| Panic.
Global Arguments Val {A} a.
Global Arguments Fail {A} e.
Global Arguments Panic {A}.

Inductive QEvent : Type :=
| QCall (o : BusObject) (method : string) (args : list Arg)
| QGetProperty (o : BusObject) (name : string)
| QSleep (d : Z)
| QLog (format : string) (args : list fmt_arg)
| QPrintf (format : string) (args : list fmt_arg).

Record QSt (W : Type) : Type := mkQSt {
  qworld : W;
  qlog : list QEvent
}.
Global Arguments mkQSt {W} qworld qlog.
Global Arguments qworld {W} q.
Global Arguments qlog {W} q.

(** The bus as the query functions use it.  [Reply] is a reply body or the
    content of a variant; the [Into...] functions are [Store] into
    destinations of the given types. *)
Class QueryBus (W : Type) : Type := {
  Reply : Type;
  (* conn.Object(dest, path); None is the nil interface *)
  ObjectAt : Conn -> string -> ObjectPath -> option BusObject;
  (* obj.Call(method, 0, args...): call.Err or the reply *)
  Invoke : BusObject -> string -> list Arg -> W -> result Reply * W;
  (* obj.GetProperty(name): the error or the variant *)
  GetProperty : BusObject -> string -> W -> result Reply * W;
  IntoNothing : Reply -> option error;
  IntoUint32 : Reply -> result Z;
  IntoObjectPath : Reply -> result ObjectPath;
  IntoObjectPaths : Reply -> result (list ObjectPath);
  IntoBytes : Reply -> result (list Ascii.ascii);
  IntoString : Reply -> result string;
  IntoTwoObjectPaths : Reply -> result (ObjectPath * ObjectPath)
}.

Definition Q (W A : Type) : Type := QSt W -> outcome A * QSt W.

Global Instance Q_ret {W} : MRet (Q W) := fun A a st => (Val a, st).

Global Instance Q_bind {W} : MBind (Q W) := fun A B f m st =>
  match m st with
  | (Val a, st') => f a st'
  | (Fail e, st') => (Fail e, st')
  | (Panic, st') => (Panic, st')
  end.

Definition failWith {W A} (e : error) : Q W A := fun st => (Fail e, st).

Definition panic {W A} : Q W A := fun st => (Panic, st).

Definition note {W} (ev : QEvent) : Q W unit :=
  fun st => (Val tt, mkQSt (qworld st) (qlog st ++ [ev])).

(** [if err != nil { return ..., wrap(err) }] on a (value, error) pair. *)
Definition orFail {W A} (wrap : error -> error) (r : result A) : Q W A :=
  match r with
  | Ok a => mret a
  | Err err => failWith (wrap err)
  end.

(** The same on the outcome of a called function. *)
Definition rewrap {W A} (wrap : error -> error) (m : Q W A) : Q W A := fun st =>
  match m st with
  | (Fail err, st') => (Fail (wrap err), st')
  | other => other
  end.

Definition NetworkManagerInterface : string := "org.freedesktop.NetworkManager".
Definition NetworkManagerObjectPath : ObjectPath := "/org/freedesktop/NetworkManager".
Definition MethodDbusGetProperty : string := "org.freedesktop.DBus.Properties.Get".
Definition NetworkManagerMethodGetState : string := "org.freedesktop.NetworkManager.state".
Definition NetworkManagerMethodCheckConnectivity : string :=
  "org.freedesktop.NetworkManager.CheckConnectivity".
Definition NetworkManagerMethodGetDeviceFromIFace : string :=
  "org.freedesktop.NetworkManager.GetDeviceByIpIface".
Definition NetworkManagerMethodWirelessSSIDScan : string :=
  "org.freedesktop.NetworkManager.Device.Wireless.RequestScan".
Definition NetworkManagerMethodGetSSIDs : string :=
  "org.freedesktop.NetworkManager.Device.Wireless.GetAccessPoints".

Definition quote : string := String (Ascii.ascii_of_nat 34) EmptyString.
Definition newline : string := String (Ascii.ascii_of_nat 10) EmptyString.

(** [type SSIDInfo struct { SSID []byte; ObjectPath dbus.ObjectPath }] *)
Record SSIDInfo : Type := mkSSIDInfo {
  SSID : list Ascii.ascii;
  ObjectPath' : ObjectPath
}.

(** The zero value of [SSIDInfo]. *)
Definition zeroSSIDInfo : SSIDInfo := mkSSIDInfo [] "".

Section WithBus.
Context {W : Type} `{QueryBus W}.

(** [obj.Call(...)] through an interface value that may be nil. *)
Definition call (o : option BusObject) (method : string) (args : list Arg)
  : Q W (result Reply) := fun st =>
  match o with
  | None => (Panic, st)
  | Some obj =>
      let '(r, w) := Invoke obj method args (qworld st) in
      (Val r, mkQSt w (qlog st ++ [QCall obj method args]))
  end.

Definition getProperty (obj : BusObject) (name : string) : Q W (result Reply) := fun st =>
  let '(r, w) := GetProperty obj name (qworld st) in
  (Val r, mkQSt w (qlog st ++ [QGetProperty obj name])).

(** [call.Store(&x)] right on the call: the call's error, or the store's. *)
Definition stored {A} (into : Reply -> result A) (r : result Reply) : result A :=
  match r with
  | Ok reply => into reply
  | Err err => Err err
  end.

(** The function returns the address of its local [nm]: never a nil pointer,
    whatever the interface value is. *)
Definition getNetworkManagerObject (conn : Conn) : option BusObject :=
  ObjectAt conn NetworkManagerInterface NetworkManagerObjectPath.

Definition GetNetworkManagerState (conn : Conn) : Q W Z :=
  let nmObj := getNetworkManagerObject conn in
  r ← call nmObj NetworkManagerMethodGetState [];
  reply ← orFail (fun err => fmt_Errorf "error calling %s: %v"
                               [arg_string NetworkManagerMethodGetState; arg_error err]) r;
  orFail (fun err => fmt_Errorf "error storing state from call: %v" [arg_error err])
    (IntoUint32 reply).

Definition GetNetworkManagerConnectivity (conn : Conn) : Q W Z :=
  let nmObj := getNetworkManagerObject conn in
  r ← call nmObj NetworkManagerMethodCheckConnectivity [];
  reply ← orFail (fun err => fmt_Errorf "error from call to %s: %v"
                               [arg_string NetworkManagerMethodCheckConnectivity;
                                arg_error err]) r;
  orFail (fun err => fmt_Errorf "error storing result from call: %v" [arg_error err])
    (IntoUint32 reply).

Definition getDevicesFromConnection (connObj : BusObject) : Q W (list ObjectPath) :=
  let connActiveInterface := "org.freedesktop.NetworkManager.Connection.Active" in
  r ← getProperty connObj (connActiveInterface +:+ ".Devices");
  variant ← orFail (fun err => fmt_Errorf "error during property read %s: %v"
                                 [arg_string (connActiveInterface +:+ ".Devices");
                                  arg_error err]) r;
  orFail (fun err => fmt_Errorf "error storing variant: %v" [arg_error err])
    (IntoObjectPaths variant).

Definition GetPrimaryDevicePath (conn : Conn) : Q W ObjectPath :=
  let nmObj := getNetworkManagerObject conn in
  r ← call nmObj MethodDbusGetProperty
        [ArgString NetworkManagerInterface; ArgString "PrimaryConnection"];
  reply ← orFail (fun err => fmt_Errorf "error calling %s: %v"
                               [arg_string MethodDbusGetProperty; arg_error err]) r;
  connPath ← orFail (fun err => fmt_Errorf "error storing result of call: %v" [arg_error err])
               (IntoObjectPath reply);
  match ObjectAt conn NetworkManagerInterface connPath with
  | None => failWith (fmt_Errorf "failed to get connection object" [])
  | Some connObj =>
      devicePaths ← getDevicesFromConnection connObj;
      (if (1 <? length devicePaths)%nat then
         note (QLog "[Warning] More than one device path for primary connection." [])
       else if (length devicePaths =? 0)%nat then
         failWith (errors_New "no devices are associated with the primary connection")
       else mret tt);;
      (* return devicePaths[0], nil *)
      match devicePaths !! 0%nat with
      | Some devicePath => mret devicePath
      | None => panic
      end
  end.

Definition GetDeviceObjectFromPath (conn : Conn) (devPath : ObjectPath) : Q W BusObject :=
  match ObjectAt conn NetworkManagerInterface devPath with
  | None => failWith (fmt_Errorf "failed to retrieve object at %s" [arg_string devPath])
  | Some device => mret device
  end.

Definition GetDeviceInterfaceName (conn : Conn) (devObj : BusObject) : Q W string :=
  r ← getProperty devObj (NetworkManagerInterface +:+ ".Device.Interface");
  variant ← orFail (fun err => fmt_Errorf "failed to read property of device: %v"
                                 [arg_error err]) r;
  orFail (fun err => fmt_Errorf "error storing data: %v" [arg_error err])
    (IntoString variant).

Definition GetPrimaryDeviceObject (conn : Conn) : Q W BusObject :=
  devPath ← GetPrimaryDevicePath conn;
  GetDeviceObjectFromPath conn devPath.

Definition GetDevicePathFromInterfaceName (conn : Conn) (interfaceName : string)
  : Q W ObjectPath :=
  let nmObj := getNetworkManagerObject conn in
  r ← call nmObj NetworkManagerMethodGetDeviceFromIFace [ArgString interfaceName];
  reply ← orFail (fun err => fmt_Errorf "error during call %s: %v"
                               [arg_string NetworkManagerMethodGetDeviceFromIFace;
                                arg_error err]) r;
  orFail (fun err => fmt_Errorf "error storing value from call: %v" [arg_error err])
    (IntoObjectPath reply).

(** The [for i, ap := range ssids] of [GetAvailableSSIDs], from index [i]
    on: a failed read is logged and leaves [ssidInfos[i]] as it is. *)
Fixpoint readSSIDs (conn : Conn) (i : nat) (ssids : list ObjectPath)
    (ssidInfos : list SSIDInfo) : Q W (list SSIDInfo) :=
  match ssids with
  | [] => mret ssidInfos
  | ap :: rest =>
      r ← call (ObjectAt conn NetworkManagerInterface ap)
            "org.freedesktop.DBus.Properties.Get"
            [ArgString "org.freedesktop.NetworkManager.AccessPoint"; ArgString "Ssid"];
      match stored IntoBytes r with
      | Err err =>
          note (QLog "[Warning] Error getting SSID Info: %v" [arg_error err]);;
          readSSIDs conn (S i) rest ssidInfos
      | Ok ssid =>
          readSSIDs conn (S i) rest (<[i := mkSSIDInfo ssid ap]> ssidInfos)
      end
  end.

Definition GetAvailableSSIDs (conn : Conn) (devObj : BusObject) : Q W (list SSIDInfo) :=
  r ← call (Some devObj) NetworkManagerMethodWirelessSSIDScan [ArgOptions ∅];
  reply ← orFail (fun err => fmt_Errorf "error in call to %s: %v"
                               [arg_string NetworkManagerMethodWirelessSSIDScan;
                                arg_error err]) r;
  match IntoNothing reply with
  | Some err => failWith (fmt_Errorf "error storing call: %v" [arg_error err])
  | None =>
      note (QSleep time_Second);;
      r ← call (Some devObj) NetworkManagerMethodGetSSIDs [];
      reply ← orFail (fun err => fmt_Errorf "error in call to %s: %v"
                                   [arg_string NetworkManagerMethodGetSSIDs;
                                    arg_error err]) r;
      ssids ← orFail (fun err => fmt_Errorf "error storing call: %v" [arg_error err])
                (IntoObjectPaths reply);
      (* ssidInfos := make([]SSIDInfo, len(ssids)) *)
      readSSIDs conn 0 ssids (replicate (length ssids) zeroSSIDInfo)
  end.

(** A scan spelt out without indices: for each access point in turn, its
    [Ssid] property is read; the entry is the bytes read with the access
    point's path, or, after a logged warning, the zero entry when the read
    or its store failed. *)
Fixpoint scanEntries (conn : Conn) (ssids : list ObjectPath) : Q W (list SSIDInfo) :=
  match ssids with
  | [] => mret []
  | ap :: rest =>
      r ← call (ObjectAt conn NetworkManagerInterface ap)
            "org.freedesktop.DBus.Properties.Get"
            [ArgString "org.freedesktop.NetworkManager.AccessPoint"; ArgString "Ssid"];
      match stored IntoBytes r with
      | Err err =>
          note (QLog "[Warning] Error getting SSID Info: %v" [arg_error err]);;
          entries ← scanEntries conn rest;
          mret (zeroSSIDInfo :: entries)
      | Ok ssid =>
          entries ← scanEntries conn rest;
          mret (mkSSIDInfo ssid ap :: entries)
      end
  end.

Definition GetDeviceFromInterfaceName (conn : Conn) (interfaceName : string)
  : Q W BusObject :=
  devPath ← GetDevicePathFromInterfaceName conn interfaceName;
  GetDeviceObjectFromPath conn devPath.

Definition CheckDeviceState (conn : Conn) (devObj : BusObject) : Q W Z :=
  r ← call (Some devObj) MethodDbusGetProperty
        [ArgString "org.freedesktop.NetworkManager.Device"; ArgString "State"];
  orFail (fun err => err) (stored IntoUint32 r).

Definition getConnectionSettings (ssid pass : string) : gmap string (gmap string Variant) :=
  list_to_map [
    ("802-11-wireless",
     list_to_map [("ssid", VariantBytes (String.list_ascii_of_string ssid))]);
    ("802-11-wireless-security",
     list_to_map [("key-mgmt", VariantString "wpa-psk"); ("psk", VariantString pass)]);
    ("connection",
     list_to_map [("id", VariantString ssid);
                  ("type", VariantString "802-11-wireless");
                  ("autoconnect", VariantBool true)]);
    ("ipv4", list_to_map [("method", VariantString "auto")]);
    ("ipv6", list_to_map [("method", VariantString "auto")])
  ].

(** The search loop of [ConnectToSSID]: the path of the first entry whose
    SSID, as a string, is [ssid]; [None] is [ssidMatched == false]. *)
Fixpoint findSSID (ssid : string) (ssids : list SSIDInfo) : option ObjectPath :=
  match ssids with
  | [] => None
  | si :: rest =>
      if String.eqb (String.string_of_list_ascii (SSID si)) ssid
      then Some (ObjectPath' si)
      else findSSID ssid rest
  end.

Definition ConnectToSSID (ssid pass : string) (conn : Conn) (devPath : ObjectPath)
  : Q W unit :=
  devObj ← GetDeviceObjectFromPath conn devPath;
  ssids ← rewrap (fun err => fmt_Errorf "failed to scan SSIDS: %w" [arg_error err])
            (GetAvailableSSIDs conn devObj);
  match findSSID ssid ssids with
  | None =>
      failWith (fmt_Errorf ("failed to find SSID matching given " +:+ quote +:+ "%s" +:+ quote)
                  [arg_string ssid])
  | Some ssidPath =>
      let connectionSettings := getConnectionSettings ssid pass in
      r ← call (ObjectAt conn NetworkManagerInterface NetworkManagerObjectPath)
            "org.freedesktop.NetworkManager.AddAndActivateConnection"
            [ArgSettings connectionSettings; ArgObjectPath devPath; ArgObjectPath ssidPath];
      '(activeConnectionPath, devicePath) ←
        orFail (fun err => fmt_Errorf "failed to add and activate connection: %w"
                             [arg_error err])
          (stored IntoTwoObjectPaths r);
      note (QPrintf ("Connection activated: %s on device: %s" +:+ newline)
              [arg_string activeConnectionPath; arg_string devicePath])
  end.

End WithBus.

(** A scripted bus for the queries: calls and property reads are answered
    from a list. *)
Inductive Answer : Type :=
| ANothing
| AUint32 (n : Z)
| AObjectPath (p : ObjectPath)
| AObjectPaths (ps : list ObjectPath)
| ABytes (bs : list Ascii.ascii)
| AString (s : string)
| ATwoObjectPaths (p q : ObjectPath).

Definition mismatch : error := errors_New "dbus.Store: type mismatch".

(** An object path among the arguments, or the one called, that the library
    cannot encode: the call fails before anything is sent. *)
Definition unsendable (o : BusObject) (args : list Arg) : bool :=
  negb (store.validPath (obj_path o))
  || existsb (fun a => match a with
                       | ArgObjectPath p => negb (store.validPath p)
                       | _ => false
                       end) args.

(** [Store] of an answer into a destination of a string kind, into a
    [[]byte] and into a [[]dbus.ObjectPath]: string kinds and byte slices
    convert into each other, an integer into a string, slices element by
    element. *)
Definition answerIntoString (a : Answer) : result string :=
  match a with
  | AString s => Ok s
  | AObjectPath p => Ok p
  | AUint32 n => Ok (store.runeString n)
  | ABytes bs => Ok (String.string_of_list_ascii bs)
  | _ => Err mismatch
  end.

Definition answerIntoBytes (a : Answer) : result (list Ascii.ascii) :=
  match a with
  | ABytes bs => Ok bs
  | AString s => Ok (String.list_ascii_of_string s)
  | AObjectPath p => Ok (String.list_ascii_of_string p)
  | AObjectPaths [] => Ok []
  | _ => Err mismatch
  end.

Definition answerIntoObjectPaths (a : Answer) : result (list ObjectPath) :=
  match a with
  | AObjectPaths ps => Ok ps
  | ABytes bs =>
      Ok (List.map (fun b => store.runeString (Z.of_N (Ascii.N_of_ascii b))) bs)
  | _ => Err mismatch
  end.

#[global] Instance scriptedBus : QueryBus (list (result Answer)) := {
  Reply := Answer;
  ObjectAt c dest path := Some (mkBusObject c dest path);
  Invoke o method args w :=
    if unsendable o args then (Err (errors_New "dbus: invalid object path"), w)
    else
      match w with
      | r :: rest => (r, rest)
      | [] => (Err (errors_New "no reply"), [])
      end;
  GetProperty o name w :=
    if negb (store.validPath (obj_path o))
    then (Err (errors_New "dbus: invalid object path"), w)
    else
      match w with
      | r :: rest => (r, rest)
      | [] => (Err (errors_New "no reply"), [])
      end;
  IntoNothing a := match a with ANothing => None | _ => Some mismatch end;
  IntoUint32 a := match a with AUint32 n => Ok n | _ => Err mismatch end;
  IntoObjectPath := answerIntoString;
  IntoObjectPaths := answerIntoObjectPaths;
  IntoBytes := answerIntoBytes;
  IntoString := answerIntoString;
  IntoTwoObjectPaths a :=
    match a with ATwoObjectPaths p q => Ok (p, q) | _ => Err mismatch end
}.

Definition asking (answers : list (result Answer)) : QSt (list (result Answer)) :=
  mkQSt answers [].

(** A wireless device and a scan that finds three access points, the second
    of which cannot be read. *)
Definition nmBus : Conn := mkConn 1.
Definition wlan : ObjectPath := "/org/freedesktop/NetworkManager/Devices/2".
Definition wlanObj : BusObject := mkBusObject nmBus NetworkManagerInterface wlan.
Definition scan : list (result Answer) :=
  [Ok ANothing;
   Ok (AObjectPaths ["/ap/1"; "/ap/2"; "/ap/3"]);
   Ok (ABytes (String.list_ascii_of_string "home"));
   Err (errors_New "access point is gone");
   Ok (ABytes (String.list_ascii_of_string "cafe"))].
Definition scanned : list SSIDInfo :=
  [mkSSIDInfo (String.list_ascii_of_string "home") "/ap/1";
   zeroSSIDInfo;
   mkSSIDInfo (String.list_ascii_of_string "cafe") "/ap/3"].

End queries.


(** ** A signal channel that the library closes

    The library closes every channel registered with [conn.Signal] when the
    connection is closed: by the code's own [conn.Close()], by another holder
    of the connection ([dbus.SystemBus()] hands the same one to every caller
    in the process), or because the bus has gone.  A receive from the closed
    channel yields what is still buffered and then nil, at once and every
    time; neither [waitJobComplete] nor [goParseDeviceStateChangeSignals]
    looks at the received pointer before using it. *)

Module closing.
Import dbus systemd channel network queries.

(** How the select loop of [waitJobComplete] stops being fed: its timer
    fires, or [signalCh] is closed with nothing buffered and yields nil. *)
Inductive Ending : Type :=
| TimerFires
| ChannelClosed.

(** A (value, error) return, or none when the body panicked. *)
Definition returned {W A} (r : result A * St W) : outcome A * St W :=
  match r with
  | (Ok a, st) => (Val a, st)
  | (Err e, st) => (Fail e, st)
  end.

(** Where the pump stands together with its signal channel's state. *)
Record Pumping (W : Type) : Type := mkPumping {
  subscription : DeviceStateChangeSubscription;
  transport : St W;
  sigChClosed : bool;       (* the library has closed [sigCh] *)
  panicked : bool           (* the pump goroutine has panicked *)
}.
Global Arguments mkPumping {W} subscription transport sigChClosed panicked.
Global Arguments subscription {W} p.
Global Arguments transport {W} p.
Global Arguments sigChClosed {W} p.
Global Arguments panicked {W} p.

Inductive Happening : Type :=
| HStep (l : Label)         (* one of the steps of [step] *)
| HConnClosed               (* the connection is closed from elsewhere *)
| HSelectNil.               (* the pump's select receives nil from [sigCh] *)

Section WithTransport.
Context {W : Type} `{Transport W}.

(** The [for { select { ... } }] of [waitJobComplete] with both endings.
    With the signals used up, [case <-timer.C] returns the timeout error,
    and [case signal := <-signalCh] on the closed channel binds nil, on
    which [signal.Name] is a nil pointer dereference. *)
Fixpoint waitJobSelect (targetJobPath : ObjectPath) (signals : list Signal)
    (ending : Ending) (st : St W) : outcome string * St W :=
  match signals with
  | [] =>
      match ending with
      | TimerFires => (Fail (errors_New "operation timed out"), st)
      | ChannelClosed => (Panic, st)
      end
  | signal :: rest =>
      if String.eqb (Name signal) "org.freedesktop.systemd1.Manager.JobRemoved" then
        match Body signal with
        | _ :: jobPath :: _ :: jobResult :: _ =>
            if ifaceEqObjectPath jobPath targetJobPath then
              match jobResult with
              | VString jobResult => (Val jobResult, st)
              | _ => (Fail (fmt_Errorf "unexpected jobResult type, got value: %v"
                              [arg_values [jobResult]]), st)
              end
            else waitJobSelect targetJobPath rest ending st
        | _ =>
            waitJobSelect targetJobPath rest ending
              (snd (log_Printf
                      "[Warning] expected length of job signal body to be at least 4: %v"
                      [arg_values (Body signal)] st))
        end
      else waitJobSelect targetJobPath rest ending st
  end.

(** One happening around [goParseDeviceStateChangeSignals].  No signal is
    delivered to a closed channel; the pump's own return closes the
    connection and with it the channel; on nil, [sig.Path] panics, the
    deferred [conn.Close()] and [wg.Done()] run, and the panic, which nothing
    recovers, ends the program. *)
Definition happen (p : Pumping W) (h : Happening) : option (Pumping W) :=
  if panicked p then None
  else
    match h with
    | HStep l =>
        if sigChClosed p && match l with LDeliver _ => true | _ => false end then None
        else
          match step (subscription p, transport p) l with
          | Some (sub', bus') =>
              Some (mkPumping sub' bus'
                      (sigChClosed p || match l with LSelectDone => true | _ => false end)
                      false)
          | None => None
          end
    | HConnClosed =>
        if sigChClosed p then None
        else Some (mkPumping (subscription p) (transport p) true false)
    | HSelectNil =>
        let sub := subscription p in
        match pump sub, queue (sigCh sub) with
        | AtSelect, [] =>
            if sigChClosed p then
              Some (mkPumping
                      (mkSub (devPath sub) (conn sub) (ctxDone sub) (sigCh sub) (outCh sub)
                         Returned (Nat.pred (wg sub)) (taken sub))
                      (conn_Close (conn sub) (transport p)) true true)
            else None
        | _, _ => None
        end
    end.

Fixpoint happenAll (p : Pumping W) (hs : list Happening) : option (Pumping W) :=
  match hs with
  | [] => Some p
  | h :: rest =>
      match happen p h with
      | Some p' => happenAll p' rest
      | None => None
      end
  end.

End WithTransport.

(** Whether [Stop()] is called, and whether the connection is closed from
    elsewhere, somewhere in a schedule. *)
Definition stopped (hs : list Happening) : bool :=
  existsb (fun h => match h with HStep LStop => true | _ => false end) hs.

Definition closedElsewhere (hs : list Happening) : bool :=
  existsb (fun h => match h with HConnClosed => true | _ => false end) hs.

(** A subscription as [DeviceStateChangeSubscribe] hands it back, on an
    open connection. *)
Definition running {W} (sub : DeviceStateChangeSubscription) (bus : St W) : Pumping W :=
  mkPumping sub bus false false.

End closing.


(** * Properties *)

(** ** Waiting for a job: correlation by token *)

Section JobWait.
Import dbus systemd.
Context {W : Type} `{Transport W}.

Local Arguments String.eqb : simpl never.

Lemma ifaceEqObjectPath_true v p :
  ifaceEqObjectPath v p = true <-> v = VObjectPath p.
Proof.
  destruct v; simpl; try (split; [discriminate | intros [=]]).
  rewrite String.eqb_eq. split; [intros -> | intros [=]]; congruence.
Qed.

(** A string result of the loop was read from a [JobRemoved] signal for the
    awaited token. *)
Lemma waitJobLoop_Ok target signals : forall (st st' : St W) r,
  waitJobLoop target signals st = (Ok r, st') ->
  exists sig, sig ∈ signals /\ jobRemovedFor target sig
              /\ Body sig !! 3%nat = Some (VString r).
Proof.
  induction signals as [|sig rest IH]; intros st st' r; simpl.
  - discriminate.
  - intros Hrun.
    assert (Hrest : forall st1, waitJobLoop target rest st1 = (Ok r, st') ->
              exists sig0, sig0 ∈ sig :: rest /\ jobRemovedFor target sig0
                           /\ Body sig0 !! 3%nat = Some (VString r)).
    { intros st1 H1. destruct (IH _ _ _ H1) as (s0 & Hin & Hs0).
      exists s0. split; [apply elem_of_cons; by right | done]. }
    destruct (String.eqb (Name sig) _) eqn:Hname; [| by eauto].
    apply String.eqb_eq in Hname.
    destruct (Body sig) as [|b0 [|b1 [|b2 [|b3 tl]]]] eqn:Hbody;
      try (by apply (Hrest _ Hrun)).
    destruct (ifaceEqObjectPath b1 target) eqn:Hpath; [| by eauto].
    apply ifaceEqObjectPath_true in Hpath. subst b1.
    destruct b3; try discriminate.
    injection Hrun as -> ->.
    exists sig. split; [apply elem_of_cons; by left |].
    split; [split; [done | by rewrite Hbody] | by rewrite Hbody].
Qed.

(** A signal that is not a [JobRemoved] for the awaited token is dropped:
    the loop goes on with the next one, the world untouched and at most a
    warning logged. *)
Lemma waitJobLoop_skip target sig rest (st : St W) :
  ~ jobRemovedFor target sig ->
  exists st1, world st1 = world st
    /\ (forall m, callsTo m (events st1) = callsTo m (events st))
    /\ waitJobLoop target (sig :: rest) st = waitJobLoop target rest st1.
Proof.
  intros Hno. simpl.
  destruct (String.eqb (Name sig) _) eqn:Hname; [| by exists st].
  apply String.eqb_eq in Hname.
  destruct (Body sig) as [|b0 [|b1 [|b2 [|b3 tl]]]] eqn:Hbody;
    try (eexists; split; [| split; [| reflexivity]]; simpl; [done |];
         intros m; unfold callsTo; rewrite List.filter_app, length_app; simpl; lia).
  destruct (ifaceEqObjectPath b1 target) eqn:Hpath; [| by exists st].
  apply ifaceEqObjectPath_true in Hpath. subst b1.
  exfalso. apply Hno. split; [done | by rewrite Hbody].
Qed.

(** With no [JobRemoved] for the awaited token among the signals, the timer
    case ends the loop. *)
Lemma waitJobLoop_timeout target signals : forall st : St W,
  (forall sig, sig ∈ signals -> ~ jobRemovedFor target sig) ->
  exists st', waitJobLoop target signals st = (Err (errors_New "operation timed out"), st')
    /\ world st' = world st
    /\ (forall m, callsTo m (events st') = callsTo m (events st)).
Proof.
  induction signals as [|sig rest IH]; intros st Hall.
  - exists st. done.
  - destruct (waitJobLoop_skip target sig rest st) as (st1 & Hw & Hc & ->).
    { apply Hall, elem_of_cons. by left. }
    destruct (IH st1) as (st' & -> & Hw' & Hc').
    { intros s Hs. apply Hall, elem_of_cons. by right. }
    exists st'. split; [done |]. split; [congruence |].
    intros m. by rewrite Hc', Hc.
Qed.

(** The loop itself talks to nobody: it leaves the world alone and adds no
    call to the record. *)
Lemma waitJobLoop_quiet target signals : forall st : St W,
  world (snd (waitJobLoop target signals st)) = world st
  /\ forall m, callsTo m (events (snd (waitJobLoop target signals st)))
               = callsTo m (events st).
Proof.
  induction signals as [|sig rest IH]; intros st; [done |]. simpl.
  destruct (String.eqb (Name sig) _); [| apply IH].
  destruct (Body sig) as [|b0 [|b1 [|b2 [|b3 tl]]]];
    unfold mbind, M_bind, log_Printf, emit; simpl;
    try (match goal with
         | |- context [waitJobLoop target rest ?s] => destruct (IH s) as [Hw Hc]
         end;
         split; [exact Hw |]; intros m; rewrite (Hc m); simpl;
         unfold callsTo; rewrite List.filter_app, length_app; simpl; lia).
  destruct (ifaceEqObjectPath b1 target); [| apply IH].
  by destruct b3.
Qed.

(** [waitJobComplete] is its setup followed by the loop over [jobSignals]. *)
Lemma waitJobComplete_loop conn target (st : St W) :
  exists st1, waitJobComplete conn target st = waitJobLoop target (jobSignals conn st) st1
    /\ forall m, m <> "org.freedesktop.DBus.AddMatch" ->
         callsTo m (events st1) = callsTo m (events st).
Proof.
  unfold waitJobComplete, jobSignals, obj_Call. simpl.
  destruct (Call _ _ _ _) as [r w]. simpl.
  destruct (SignalsWithin _ _ _) as [signals w']. simpl.
  eexists. split; [reflexivity |]. intros m Hm. simpl.
  unfold callsTo. rewrite !List.filter_app, !length_app. simpl.
  rewrite (proj2 (String.eqb_neq _ _) (not_eq_sym Hm)). simpl. lia.
Qed.

Lemma waitJobComplete_calls conn target (st : St W) m :
  m <> "org.freedesktop.DBus.AddMatch" ->
  callsTo m (events (snd (waitJobComplete conn target st))) = callsTo m (events st).
Proof.
  intros Hm. destruct (waitJobComplete_loop conn target st) as (st1 & -> & Hc).
  rewrite (proj2 (waitJobLoop_quiet target _ st1) m). by apply Hc.
Qed.

Lemma waitJobComplete_timeout conn target (st : St W) :
  (forall sig, sig ∈ jobSignals conn st -> ~ jobRemovedFor target sig) ->
  fst (waitJobComplete conn target st) = Err (errors_New "operation timed out").
Proof.
  intros Hall. destruct (waitJobComplete_loop conn target st) as (st1 & -> & _).
  destruct (waitJobLoop_timeout target _ st1 Hall) as (st' & -> & _). done.
Qed.

(** C1: a job result returned by waitJobComplete was read from a JobRemoved
    notification, among those received, whose embedded job path is the awaited
    token (for StartService and StopService, the token their StartUnit or
    StopUnit call returned); a notification that is not a JobRemoved for that
    token is discarded and the wait goes on with the next one. *)
Theorem waitJobComplete_correlates conn target :
  (forall (st st' : St W) r,
      waitJobComplete conn target st = (Ok r, st') ->
      exists sig, sig ∈ jobSignals conn st /\ jobRemovedFor target sig
                  /\ Body sig !! 3%nat = Some (VString r))
  /\ (forall sig rest (st : St W),
        ~ jobRemovedFor target sig ->
        exists st1, world st1 = world st
          /\ waitJobLoop target (sig :: rest) st = waitJobLoop target rest st1).
Proof.
  split.
  - intros st st' r Hrun.
    destruct (waitJobComplete_loop conn target st) as (st1 & Heq & _).
    rewrite Heq in Hrun. by apply waitJobLoop_Ok in Hrun.
  - intros sig rest st Hno.
    destruct (waitJobLoop_skip target sig rest st Hno) as (st1 & Hw & _ & Heq).
    by exists st1.
Qed.

End JobWait.


(** ** Start and stop of a service *)

Section Services.
Import dbus systemd.
Context {W : Type} `{Transport W}.

Local Arguments String.eqb : simpl never.

Lemma callsTo_app m (a b : list Event) :
  callsTo m (a ++ b) = (callsTo m a + callsTo m b)%nat.
Proof. unfold callsTo. by rewrite List.filter_app, length_app. Qed.

Lemma callsTo_call m o m' args :
  callsTo m [EvCall o m' args] = if String.eqb m' m then 1%nat else 0%nat.
Proof. unfold callsTo. simpl. by destruct (String.eqb m' m). Qed.

Lemma callsTo_log m f a : callsTo m [EvLog f a] = 0%nat.
Proof. reflexivity. Qed.

Lemma callsTo_close m c : callsTo m [EvClose c] = 0%nat.
Proof. reflexivity. Qed.

Lemma callsTo_signal m c n : callsTo m [EvSignal c n] = 0%nat.
Proof. reflexivity. Qed.

Lemma callsTo_bus m : callsTo m [EvSystemBus] = 0%nat.
Proof. reflexivity. Qed.

Ltac unfold_M :=
  unfold mbind, M_bind, mret, M_ret, onErr, fail, log_Printf, emit, obj_Call,
    dbus_SystemBus, defer_Close, conn_Close in *.

Ltac split_bus :=
  match goal with
  | |- context [Object ?c ?d ?p] => destruct (Object c d p) eqn:?
  | |- context [Call ?o ?m ?a ?w] => destruct (Call o m a w) as [[?|?] ?] eqn:?
  | |- context [SystemBus ?w] => destruct (SystemBus w) as [[?|?] ?] eqn:?
  | |- context [SignalsWithin ?c ?d ?w] => destruct (SignalsWithin c d w) eqn:?
  end; simpl.

Ltac count_calls :=
  repeat (simpl; rewrite ?callsTo_app, ?callsTo_call, ?callsTo_log, ?callsTo_close,
            ?callsTo_signal, ?callsTo_bus); simpl;
  repeat match goal with
         | H : ?a <> ?b |- context [String.eqb ?a ?b] =>
             rewrite (proj2 (String.eqb_neq a b) H)
         | H : ?b <> ?a |- context [String.eqb ?a ?b] =>
             rewrite (proj2 (String.eqb_neq a b) (not_eq_sym H))
         end;
  try lia.

(** The status query calls [GetUnit] and [Properties.Get] and nothing else. *)
Lemma checkServiceStatus_calls conn name m (st : St W) :
  m <> systemdGetUnitMethod -> m <> dbusGetPropertyMethod ->
  callsTo m (events (snd (checkServiceStatus conn name st))) = callsTo m (events st).
Proof.
  intros Hm1 Hm2.
  unfold checkServiceStatus, getSystemdUnitObject, getUnitStatus, getSystemdObject.
  unfold_M. repeat split_bus; count_calls.
Qed.

Lemma method_names_distinct :
  systemdStartUnitMethod <> systemdGetUnitMethod
  /\ systemdStartUnitMethod <> dbusGetPropertyMethod
  /\ systemdStopUnitMethod <> systemdGetUnitMethod
  /\ systemdStopUnitMethod <> dbusGetPropertyMethod
  /\ systemdStartUnitMethod <> systemdStopUnitMethod
  /\ dbusGetPropertyMethod <> systemdStartUnitMethod
  /\ dbusGetPropertyMethod <> systemdStopUnitMethod.
Proof. repeat split; discriminate. Qed.

Lemma checkServiceStatus_mutating conn name (st st' : St W) r :
  checkServiceStatus conn name st = (r, st') ->
  callsTo systemdStartUnitMethod (events st') = callsTo systemdStartUnitMethod (events st)
  /\ callsTo systemdStopUnitMethod (events st') = callsTo systemdStopUnitMethod (events st).
Proof.
  intros Hrun. destruct method_names_distinct as (Ha & Hb & Hc & Hd & _).
  pose proof (checkServiceStatus_calls conn name systemdStartUnitMethod st Ha Hb) as Hstart.
  pose proof (checkServiceStatus_calls conn name systemdStopUnitMethod st Hc Hd) as Hstop.
  rewrite Hrun in Hstart, Hstop. auto.
Qed.

Lemma dbus_SystemBus_events (st st' : St W) r :
  dbus_SystemBus st = (r, st') -> events st' = events st ++ [EvSystemBus].
Proof.
  unfold dbus_SystemBus. destruct (SystemBus (world st)). by intros [= _ <-].
Qed.

Local Arguments checkServiceStatus : simpl never.
Local Arguments doStartService : simpl never.
Local Arguments doStopService : simpl never.
Local Arguments waitJobComplete : simpl never.

(** Unfolds a service function down to its pre-check. *)
Ltac enter_service Hbus Hobj :=
  unfold StartService, StopService, getSystemdObject;
  unfold mbind, M_bind, onErr, defer_Close;
  rewrite Hbus; simpl; rewrite Hobj; simpl.

Lemma doStartService_events systemdObj name (st st' : St W) r :
  doStartService systemdObj name st = (r, st') ->
  events st' = events st
               ++ [EvCall systemdObj systemdStartUnitMethod [VString name; VString "replace"]].
Proof.
  unfold doStartService. unfold_M. destruct (Call _ _ _ _) as [[body | e] w]; simpl;
    by intros [= _ <-].
Qed.

Lemma doStopService_events systemdObj name (st st' : St W) r :
  doStopService systemdObj name st = (r, st') ->
  events st' = events st
               ++ [EvCall systemdObj systemdStopUnitMethod [VString name; VString "replace"]].
Proof.
  unfold doStopService. unfold_M. destruct (Call _ _ _ _) as [[body | e] w]; simpl;
    by intros [= _ <-].
Qed.

(** StartService on a unit the pre-check finds running. *)
Lemma StartService_running name (st0 st1 st2 : St W) conn systemdObj unitObj :
  dbus_SystemBus st0 = (Ok conn, st1) ->
  Object conn systemdService systemObjectPath = Some systemdObj ->
  checkServiceStatus conn name st1 = (Ok (unitObj, true), st2) ->
  StartService name st0
  = (Ok tt, conn_Close conn
              (snd (log_Printf "Unit %s is already running." [arg_string name] st2)))
  /\ mutatingCalls (events (snd (StartService name st0))) = mutatingCalls (events st0).
Proof.
  intros Hbus Hobj Hcheck.
  pose proof (dbus_SystemBus_events _ _ _ Hbus) as Hev1.
  destruct (checkServiceStatus_mutating _ _ _ _ _ Hcheck) as [Hs1 Hs2].
  enter_service Hbus Hobj. rewrite Hcheck. simpl.
  split; [reflexivity |].
  unfold mutatingCalls. count_calls. rewrite Hs1, Hs2, Hev1. count_calls.
Qed.

(** StopService on a unit the pre-check finds stopped. *)
Lemma StopService_stopped name (st0 st1 st2 : St W) conn systemdObj unitObj :
  dbus_SystemBus st0 = (Ok conn, st1) ->
  Object conn systemdService systemObjectPath = Some systemdObj ->
  checkServiceStatus conn name st1 = (Ok (unitObj, false), st2) ->
  StopService name st0
  = (Ok tt, conn_Close conn
              (snd (log_Printf "Unit %s is already stopped." [arg_string name] st2)))
  /\ mutatingCalls (events (snd (StopService name st0))) = mutatingCalls (events st0).
Proof.
  intros Hbus Hobj Hcheck.
  pose proof (dbus_SystemBus_events _ _ _ Hbus) as Hev1.
  destruct (checkServiceStatus_mutating _ _ _ _ _ Hcheck) as [Hs1 Hs2].
  enter_service Hbus Hobj. rewrite Hcheck. simpl.
  split; [reflexivity |].
  unfold mutatingCalls. count_calls. rewrite Hs1, Hs2, Hev1. count_calls.
Qed.

(** C4: when the pre-check already reports the wanted end state (running for
    StartService, stopped for StopService), the call returns nil at once:
    after the check it only logs and closes the connection, and it has issued
    no StartUnit or StopUnit call. *)
Theorem start_stop_idempotent name (st0 st1 st2 : St W) conn systemdObj unitObj :
  dbus_SystemBus st0 = (Ok conn, st1) ->
  Object conn systemdService systemObjectPath = Some systemdObj ->
  (checkServiceStatus conn name st1 = (Ok (unitObj, true), st2) ->
     StartService name st0
     = (Ok tt, conn_Close conn
                 (snd (log_Printf "Unit %s is already running." [arg_string name] st2)))
     /\ mutatingCalls (events (snd (StartService name st0))) = mutatingCalls (events st0))
  /\ (checkServiceStatus conn name st1 = (Ok (unitObj, false), st2) ->
     StopService name st0
     = (Ok tt, conn_Close conn
                 (snd (log_Printf "Unit %s is already stopped." [arg_string name] st2)))
     /\ mutatingCalls (events (snd (StopService name st0))) = mutatingCalls (events st0)).
Proof.
  intros Hbus Hobj. split; intros Hcheck.
  - by apply (StartService_running name st0 st1 st2 conn systemdObj unitObj).
  - by apply (StopService_stopped name st0 st1 st2 conn systemdObj unitObj).
Qed.

(** As long as the signal channel stays open until the timer fires: when no
    JobRemoved notification for the issued token is among the signals
    received before the five-second timer, waitJobComplete returns the error
    "operation timed out", StartService (StopService) returns an error
    wrapping it, and the whole call has issued StartUnit (StopUnit) exactly
    once. *)
Theorem wait_timeout_no_retry name (st0 st1 st2 st3 : St W) conn systemdObj unitObj job :
  dbus_SystemBus st0 = (Ok conn, st1) ->
  Object conn systemdService systemObjectPath = Some systemdObj ->
  (forall sig, sig ∈ jobSignals conn st3 -> ~ jobRemovedFor job sig) ->
  (checkServiceStatus conn name st1 = (Ok (unitObj, false), st2) ->
   doStartService systemdObj name st2 = (Ok job, st3) ->
     fst (waitJobComplete conn job st3) = Err (errors_New "operation timed out")
     /\ fst (StartService name st0)
        = Err (fmt_Errorf "waiting for start job failed with error: %v"
                 [arg_error (errors_New "operation timed out")])
     /\ callsTo systemdStartUnitMethod (events (snd (StartService name st0)))
        = S (callsTo systemdStartUnitMethod (events st0)))
  /\ (checkServiceStatus conn name st1 = (Ok (unitObj, true), st2) ->
      doStopService systemdObj name st2 = (Ok job, st3) ->
     fst (waitJobComplete conn job st3) = Err (errors_New "operation timed out")
     /\ fst (StopService name st0)
        = Err (fmt_Errorf "waiting for stop job failed with error: %v"
                 [arg_error (errors_New "operation timed out")])
     /\ callsTo systemdStopUnitMethod (events (snd (StopService name st0)))
        = S (callsTo systemdStopUnitMethod (events st0))).
Proof.
  intros Hbus Hobj Hnone.
  pose proof (dbus_SystemBus_events _ _ _ Hbus) as Hev1.
  pose proof (waitJobComplete_timeout conn job st3 Hnone) as Hwait.
  split; intros Hcheck Hdo;
    destruct (checkServiceStatus_mutating _ _ _ _ _ Hcheck) as [Hs1 Hs2];
    (split; [exact Hwait |]);
    enter_service Hbus Hobj; rewrite Hcheck; simpl; rewrite Hdo; simpl.
  - pose proof (waitJobComplete_calls conn job st3 systemdStartUnitMethod) as Hc.
    destruct (waitJobComplete conn job st3) as [r st4]. simpl in Hwait, Hc. subst r.
    simpl. split; [reflexivity |].
    count_calls. rewrite Hc by discriminate.
    rewrite (doStartService_events _ _ _ _ _ Hdo). count_calls.
    rewrite Hs1, Hev1. count_calls.
  - pose proof (waitJobComplete_calls conn job st3 systemdStopUnitMethod) as Hc.
    destruct (waitJobComplete conn job st3) as [r st4]. simpl in Hwait, Hc. subst r.
    simpl. split; [reflexivity |].
    count_calls. rewrite Hc by discriminate.
    rewrite (doStopService_events _ _ _ _ _ Hdo). count_calls.
    rewrite Hs2, Hev1. count_calls.
Qed.

(** C6: once the wait has returned the job result [r]: if [r] is "done" the
    call returns nil and does nothing more than log and close the connection
    (no second status query); otherwise it queries the status again and
    returns nil when the unit is then in the wanted state (running for
    StartService, stopped for StopService), and otherwise an error whose
    argument is the job result. *)
Theorem job_result_reconcile name (st0 st1 st2 st3 st4 : St W) conn systemdObj unitObj job r :
  dbus_SystemBus st0 = (Ok conn, st1) ->
  Object conn systemdService systemObjectPath = Some systemdObj ->
  waitJobComplete conn job st3 = (Ok r, st4) ->
  (checkServiceStatus conn name st1 = (Ok (unitObj, false), st2) ->
   doStartService systemdObj name st2 = (Ok job, st3) ->
   let st5 := snd (log_Printf "Job to start service %s completed with result: %s"
                     [arg_string name; arg_string r] st4) in
   (r = "done" -> StartService name st0 = (Ok tt, conn_Close conn st5))
   /\ (r <> "done" -> forall unitObj' running st6,
        checkServiceStatus conn name st5 = (Ok (unitObj', running), st6) ->
        StartService name st0
        = (if running : bool then Ok tt
           else Err (fmt_Errorf "job to start service failed (%s) and unit isn't running"
                       [arg_string r]),
           conn_Close conn st6)))
  /\ (checkServiceStatus conn name st1 = (Ok (unitObj, true), st2) ->
      doStopService systemdObj name st2 = (Ok job, st3) ->
   let st5 := snd (log_Printf "Job to stop service %s completed with result: %s"
                     [arg_string name; arg_string r] st4) in
   (r = "done" -> StopService name st0 = (Ok tt, conn_Close conn st5))
   /\ (r <> "done" -> forall unitObj' running st6,
        checkServiceStatus conn name st5 = (Ok (unitObj', running), st6) ->
        StopService name st0
        = (if running : bool
           then Err (fmt_Errorf "job to stop service failed (%s) and unit is still running"
                       [arg_string r])
           else Ok tt,
           conn_Close conn st6))).
Proof.
  intros Hbus Hobj Hwait.
  split; intros Hcheck Hdo st5; subst st5;
    (split; [intros -> | intros Hr unitObj' running st6 Hagain;
                         apply String.eqb_neq in Hr]);
    enter_service Hbus Hobj; rewrite Hcheck; simpl; rewrite Hdo; simpl;
    rewrite Hwait; simpl; try reflexivity;
    unfold log_Printf, emit in *; simpl in *;
    rewrite Hr, Hagain; simpl; by destruct running.
Qed.

(** C10: the status check reports a unit as running exactly when its
    ActiveState is neither "inactive" nor "failed"; so for a unit that is
    "activating" or "deactivating" StartService returns nil without any
    StartUnit or StopUnit call. *)
Theorem status_running_classification name (st0 st1 st2 st3 : St W) conn systemdObj unitObj state :
  dbus_SystemBus st0 = (Ok conn, st1) ->
  Object conn systemdService systemObjectPath = Some systemdObj ->
  getSystemdUnitObject conn name st1 = (Ok unitObj, st2) ->
  getUnitStatus unitObj st2 = (Ok state, st3) ->
  exists running st4,
    checkServiceStatus conn name st1 = (Ok (unitObj, running), st4)
    /\ (running = true <-> state <> "inactive" /\ state <> "failed")
    /\ (state = "activating" \/ state = "deactivating" ->
        fst (StartService name st0) = Ok tt
        /\ mutatingCalls (events (snd (StartService name st0))) = mutatingCalls (events st0)).
Proof.
  intros Hbus Hobj Hunit Hstate.
  assert (Hcheck : checkServiceStatus conn name st1
                   = (Ok (unitObj, negb (String.eqb state "inactive" || String.eqb state "failed")),
                      snd (log_Printf "Service %s has unit state: %s"
                             [arg_string name; arg_string state] st3))).
  { unfold checkServiceStatus, mbind, M_bind. by rewrite Hunit, Hstate. }
  eexists _, _. split; [exact Hcheck |]. split.
  - destruct (String.eqb_spec state "inactive"), (String.eqb_spec state "failed");
      simpl; intuition congruence.
  - intros Hst.
    assert (Hrun : negb (String.eqb state "inactive" || String.eqb state "failed") = true)
      by (destruct Hst; subst state; reflexivity).
    rewrite Hrun in Hcheck.
    destruct (StartService_running name st0 st1 _ conn systemdObj unitObj Hbus Hobj Hcheck)
      as [Heq Hcalls].
    split; [by rewrite Heq | exact Hcalls].
Qed.

End Services.


(** ** The service theorems on the fake bus *)

Section ServiceScenarios.
Import dbus systemd fake.

Lemma waitJobComplete_correlates_witness :
  let st := startRequested
              (demo "inactive" "active"
                 [(1000, jobRemoved "/job/9" "demo" "failed");
                  (2000, jobRemoved "/job/7" "demo" "done")]) in
  (waitJobComplete bus "/job/7" st = (Ok "done", snd (waitJobComplete bus "/job/7" st))
   /\ exists sig, sig ∈ jobSignals bus st /\ jobRemovedFor "/job/7" sig
                  /\ Body sig !! 3%nat = Some (VString "done"))
  /\ (~ jobRemovedFor "/job/7" (jobRemoved "/job/9" "demo" "failed")
      /\ exists st1, world st1 = world st
           /\ waitJobLoop "/job/7" [jobRemoved "/job/9" "demo" "failed";
                                    jobRemoved "/job/7" "demo" "done"] st
              = waitJobLoop "/job/7" [jobRemoved "/job/7" "demo" "done"] st1).
Proof.
  intros st.
  assert (Hrun : waitJobComplete bus "/job/7" st
                 = (Ok "done", snd (waitJobComplete bus "/job/7" st))) by reflexivity.
  assert (Hno : ~ jobRemovedFor "/job/7" (jobRemoved "/job/9" "demo" "failed"))
    by (intros [_ Hpath]; discriminate Hpath).
  split; split; [exact Hrun | | exact Hno |].
  - exact (proj1 (waitJobComplete_correlates bus "/job/7") st _ "done" Hrun).
  - exact (proj2 (waitJobComplete_correlates bus "/job/7") _ _ st Hno).
Defined.

Lemma start_stop_idempotent_witness :
  let active := demo "active" "active" [] in
  let inactive := demo "inactive" "inactive" [] in
  (dbus_SystemBus (start active) = (Ok bus, connected active)
   /\ Object bus systemdService systemObjectPath = Some systemdObj
   /\ checkServiceStatus bus "demo" (connected active) = (Ok (demoUnit, true), checked active)
   /\ fst (StartService "demo" (start active)) = Ok tt
   /\ mutatingCalls (events (snd (StartService "demo" (start active)))) = 0%nat)
  /\ (dbus_SystemBus (start inactive) = (Ok bus, connected inactive)
   /\ checkServiceStatus bus "demo" (connected inactive)
      = (Ok (demoUnit, false), checked inactive)
   /\ fst (StopService "demo" (start inactive)) = Ok tt
   /\ mutatingCalls (events (snd (StopService "demo" (start inactive)))) = 0%nat).
Proof.
  intros active inactive.
  assert (Hobj : Object bus systemdService systemObjectPath = Some systemdObj)
    by reflexivity.
  assert (Hb1 : dbus_SystemBus (start active) = (Ok bus, connected active)) by reflexivity.
  assert (Hc1 : checkServiceStatus bus "demo" (connected active)
                = (Ok (demoUnit, true), checked active)) by reflexivity.
  assert (Hb2 : dbus_SystemBus (start inactive) = (Ok bus, connected inactive))
    by reflexivity.
  assert (Hc2 : checkServiceStatus bus "demo" (connected inactive)
                = (Ok (demoUnit, false), checked inactive)) by reflexivity.
  destruct (proj1 (start_stop_idempotent "demo" _ _ _ bus systemdObj demoUnit Hb1 Hobj) Hc1)
    as [Hr1 Hm1].
  destruct (proj2 (start_stop_idempotent "demo" _ _ _ bus systemdObj demoUnit Hb2 Hobj) Hc2)
    as [Hr2 Hm2].
  split.
  - split; [exact Hb1 |]. split; [exact Hobj |]. split; [exact Hc1 |].
    split; [by rewrite Hr1 | exact Hm1].
  - split; [exact Hb2 |]. split; [exact Hc2 |].
    split; [by rewrite Hr2 | exact Hm2].
Defined.

Lemma wait_timeout_no_retry_witness :
  let late := [(1000000000, jobRemoved "/job/9" "demo" "done");
               (6000000000, jobRemoved "/job/7" "demo" "done")] in
  let down := demo "inactive" "active" late in
  let up := demo "active" "inactive" late in
  (jobSignals bus (startRequested down) = [jobRemoved "/job/9" "demo" "done"]
   /\ doStartService systemdObj "demo" (checked down) = (Ok "/job/7", startRequested down)
   /\ fst (StartService "demo" (start down))
      = Err (fmt_Errorf "waiting for start job failed with error: %v"
               [arg_error (errors_New "operation timed out")])
   /\ callsTo systemdStartUnitMethod (events (snd (StartService "demo" (start down)))) = 1%nat)
  /\ (jobSignals bus (stopRequested up) = [jobRemoved "/job/9" "demo" "done"]
   /\ doStopService systemdObj "demo" (checked up) = (Ok "/job/7", stopRequested up)
   /\ fst (StopService "demo" (start up))
      = Err (fmt_Errorf "waiting for stop job failed with error: %v"
               [arg_error (errors_New "operation timed out")])
   /\ callsTo systemdStopUnitMethod (events (snd (StopService "demo" (start up)))) = 1%nat).
Proof.
  intros late down up.
  assert (Hobj : Object bus systemdService systemObjectPath = Some systemdObj)
    by reflexivity.
  assert (Hother : forall sig, sig ∈ [jobRemoved "/job/9" "demo" "done"] ->
                     ~ jobRemovedFor "/job/7" sig).
  { intros sig Hin [_ Hpath]. apply list_elem_of_singleton in Hin. subst sig.
    discriminate Hpath. }
  assert (Hb1 : dbus_SystemBus (start down) = (Ok bus, connected down)) by reflexivity.
  assert (Hc1 : checkServiceStatus bus "demo" (connected down)
                = (Ok (demoUnit, false), checked down)) by reflexivity.
  assert (Hd1 : doStartService systemdObj "demo" (checked down)
                = (Ok "/job/7", startRequested down)) by reflexivity.
  assert (Hs1 : jobSignals bus (startRequested down) = [jobRemoved "/job/9" "demo" "done"])
    by reflexivity.
  assert (Hb2 : dbus_SystemBus (start up) = (Ok bus, connected up)) by reflexivity.
  assert (Hc2 : checkServiceStatus bus "demo" (connected up)
                = (Ok (demoUnit, true), checked up)) by reflexivity.
  assert (Hd2 : doStopService systemdObj "demo" (checked up)
                = (Ok "/job/7", stopRequested up)) by reflexivity.
  assert (Hs2 : jobSignals bus (stopRequested up) = [jobRemoved "/job/9" "demo" "done"])
    by reflexivity.
  assert (Hn1 : forall sig, sig ∈ jobSignals bus (startRequested down) ->
                  ~ jobRemovedFor "/job/7" sig) by (rewrite Hs1; exact Hother).
  assert (Hn2 : forall sig, sig ∈ jobSignals bus (stopRequested up) ->
                  ~ jobRemovedFor "/job/7" sig) by (rewrite Hs2; exact Hother).
  destruct (proj1 (wait_timeout_no_retry "demo" _ _ _ _ bus systemdObj demoUnit "/job/7"
                     Hb1 Hobj Hn1) Hc1 Hd1) as (_ & Hr1 & Hk1).
  destruct (proj2 (wait_timeout_no_retry "demo" _ _ _ _ bus systemdObj demoUnit "/job/7"
                     Hb2 Hobj Hn2) Hc2 Hd2) as (_ & Hr2 & Hk2).
  split.
  - split; [exact Hs1 |]. split; [exact Hd1 |]. split; [exact Hr1 | exact Hk1].
  - split; [exact Hs2 |]. split; [exact Hd2 |]. split; [exact Hr2 | exact Hk2].
Defined.

Lemma job_result_reconcile_witness :
  let failed := [(1000, jobRemoved "/job/7" "demo" "failed")] in
  let recovered := demo "inactive" "active" failed in
  let stuck := demo "active" "active" failed in
  let done := demo "inactive" "inactive" [(1000, jobRemoved "/job/7" "demo" "done")] in
  (fst (waitJobComplete bus "/job/7" (startRequested recovered)) = Ok "failed"
   /\ fst (StartService "demo" (start recovered)) = Ok tt)
  /\ (fst (waitJobComplete bus "/job/7" (stopRequested stuck)) = Ok "failed"
   /\ fst (StopService "demo" (start stuck))
      = Err (fmt_Errorf "job to stop service failed (%s) and unit is still running"
               [arg_string "failed"]))
  /\ (fst (waitJobComplete bus "/job/7" (startRequested done)) = Ok "done"
   /\ fst (StartService "demo" (start done)) = Ok tt
   /\ callsTo dbusGetPropertyMethod (events (snd (StartService "demo" (start done)))) = 1%nat).
Proof.
  intros failed recovered stuck done.
  assert (Hobj : Object bus systemdService systemObjectPath = Some systemdObj)
    by reflexivity.
  split; [| split].
  - assert (Hb : dbus_SystemBus (start recovered) = (Ok bus, connected recovered))
      by reflexivity.
    assert (Hc : checkServiceStatus bus "demo" (connected recovered)
                 = (Ok (demoUnit, false), checked recovered)) by reflexivity.
    assert (Hd : doStartService systemdObj "demo" (checked recovered)
                 = (Ok "/job/7", startRequested recovered)) by reflexivity.
    assert (Hw : waitJobComplete bus "/job/7" (startRequested recovered)
                 = (Ok "failed", snd (waitJobComplete bus "/job/7" (startRequested recovered))))
      by reflexivity.
    split; [by rewrite Hw |].
    destruct (proj1 (job_result_reconcile "demo" _ _ _ _ _ bus systemdObj demoUnit
                       "/job/7" "failed" Hb Hobj Hw) Hc Hd) as [_ Hre].
    assert (Hne : "failed" <> "done") by discriminate.
    rewrite (Hre Hne demoUnit true _ eq_refl). reflexivity.
  - assert (Hb : dbus_SystemBus (start stuck) = (Ok bus, connected stuck)) by reflexivity.
    assert (Hc : checkServiceStatus bus "demo" (connected stuck)
                 = (Ok (demoUnit, true), checked stuck)) by reflexivity.
    assert (Hd : doStopService systemdObj "demo" (checked stuck)
                 = (Ok "/job/7", stopRequested stuck)) by reflexivity.
    assert (Hw : waitJobComplete bus "/job/7" (stopRequested stuck)
                 = (Ok "failed", snd (waitJobComplete bus "/job/7" (stopRequested stuck))))
      by reflexivity.
    split; [by rewrite Hw |].
    destruct (proj2 (job_result_reconcile "demo" _ _ _ _ _ bus systemdObj demoUnit
                       "/job/7" "failed" Hb Hobj Hw) Hc Hd) as [_ Hre].
    assert (Hne : "failed" <> "done") by discriminate.
    rewrite (Hre Hne demoUnit true _ eq_refl). reflexivity.
  - assert (Hb : dbus_SystemBus (start done) = (Ok bus, connected done)) by reflexivity.
    assert (Hc : checkServiceStatus bus "demo" (connected done)
                 = (Ok (demoUnit, false), checked done)) by reflexivity.
    assert (Hd : doStartService systemdObj "demo" (checked done)
                 = (Ok "/job/7", startRequested done)) by reflexivity.
    assert (Hw : waitJobComplete bus "/job/7" (startRequested done)
                 = (Ok "done", snd (waitJobComplete bus "/job/7" (startRequested done))))
      by reflexivity.
    split; [by rewrite Hw |].
    destruct (proj1 (job_result_reconcile "demo" _ _ _ _ _ bus systemdObj demoUnit
                       "/job/7" "done" Hb Hobj Hw) Hc Hd) as [Hdone _].
    rewrite (Hdone eq_refl). split; reflexivity.
Defined.

Lemma status_running_classification_witness :
  let w := demo "activating" "active" [] in
  getSystemdUnitObject bus "demo" (connected w) = (Ok demoUnit, gotUnit w)
  /\ fst (getUnitStatus demoUnit (gotUnit w)) = Ok "activating"
  /\ fst (checkServiceStatus bus "demo" (connected w)) = Ok (demoUnit, true)
  /\ fst (StartService "demo" (start w)) = Ok tt
  /\ mutatingCalls (events (snd (StartService "demo" (start w)))) = 0%nat.
Proof.
  intros w.
  assert (Hobj : Object bus systemdService systemObjectPath = Some systemdObj)
    by reflexivity.
  assert (Hb : dbus_SystemBus (start w) = (Ok bus, connected w)) by reflexivity.
  assert (Hu : getSystemdUnitObject bus "demo" (connected w) = (Ok demoUnit, gotUnit w))
    by reflexivity.
  assert (Hs : getUnitStatus demoUnit (gotUnit w)
               = (Ok "activating", snd (getUnitStatus demoUnit (gotUnit w))))
    by reflexivity.
  destruct (status_running_classification "demo" _ _ _ _ bus systemdObj demoUnit "activating"
              Hb Hobj Hu Hs) as (running & st4 & Hcheck & Hiff & Hstart).
  destruct (Hstart (or_introl eq_refl)) as [Hr Hm].
  assert (Hrun : running = true) by (apply Hiff; split; discriminate).
  split; [exact Hu |]. split; [by rewrite Hs |].
  split; [by rewrite Hcheck, Hrun |]. split; [exact Hr | exact Hm].
Defined.

End ServiceScenarios.


(** ** The device state-change pump *)

Section Pump.
Import dbus channel network.
Context {W : Type} `{Transport W}.

Local Arguments String.eqb : simpl never.
Local Arguments step : simpl never.

Lemma decodeStateChange_unfit devPath sig :
  unfit devPath sig -> decodeStateChange devPath sig = None.
Proof.
  unfold unfit, decodeStateChange.
  intros [Hp | [Hn | [Hl | (i & v & Hi & Hlook & Hv)]]].
  - by rewrite (proj2 (String.eqb_neq _ _) Hp).
  - rewrite (proj2 (String.eqb_neq _ _) Hn). by rewrite andb_false_r.
  - rewrite (proj2 (Nat.leb_gt _ _) Hl). by rewrite andb_false_r.
  - destruct (_ && _ && _); [| done].
    destruct i as [|[|[|i]]]; [| | | lia].
    + rewrite Hlook. destruct v; try done. by destruct (Hv n).
    + destruct (Body sig !! 0%nat) as [[] |]; try done.
      rewrite Hlook. destruct v; try done. by destruct (Hv n0).
    + destruct (Body sig !! 0%nat) as [[] |]; try done.
      destruct (Body sig !! 1%nat) as [[] |]; try done.
      rewrite Hlook. destruct v; try done. by destruct (Hv n1).
Qed.

Lemma decodeStateChange_wellformed devPath sig v0 v1 v2 tl :
  Path sig = devPath -> Name sig = DeviceStateChangedSignal ->
  Body sig = VUint32 v0 :: VUint32 v1 :: VUint32 v2 :: tl ->
  decodeStateChange devPath sig = Some (v0, v1, v2).
Proof.
  intros Hp Hn Hb. unfold decodeStateChange.
  by rewrite Hp, Hn, Hb, !String.eqb_refl.
Qed.

(** A decoded record is always the first three body elements of a signal
    from the subscribed path with the state-change name. *)
Lemma decodeStateChange_Some devPath sig v0 v1 v2 :
  decodeStateChange devPath sig = Some (v0, v1, v2) ->
  Path sig = devPath /\ Name sig = DeviceStateChangedSignal
  /\ exists tl, Body sig = VUint32 v0 :: VUint32 v1 :: VUint32 v2 :: tl.
Proof.
  unfold decodeStateChange.
  destruct (String.eqb_spec (Path sig) devPath) as [Hp |]; [| done].
  destruct (String.eqb_spec (Name sig) DeviceStateChangedSignal) as [Hn |]; [| done].
  destruct (Body sig) as [|[] [|[] [|[] tl]]]; simpl; try done.
  intros [= -> -> ->]. eauto.
Qed.

(** The step function never touches the device path or the connection. *)
Lemma step_devPath (s s' : DeviceStateChangeSubscription * St W) l :
  step s l = Some s' -> devPath s'.1 = devPath s.1 /\ conn s'.1 = conn s.1.
Proof.
  destruct s as [sub bus]. unfold step.
  destruct l; repeat case_match; intros; simplify_eq; done.
Qed.

(** Flow through the pump: along any run, the records put on [C] (plus the
    one being sent) grow by the decodings of the signals taken from [sigCh],
    in the order these were delivered. *)
Lemma run_flow ls : forall (s s' : DeviceStateChangeSubscription * St W),
  run s ls = Some s' ->
  exists got,
    got ++ queue (sigCh s'.1) = queue (sigCh s.1) ++ delivered ls
    /\ records s'.1 ++ pending s'.1
       = (records s.1 ++ pending s.1) ++ omap (decodeStateChange (devPath s.1)) got.
Proof.
  induction ls as [|l rest IH]; intros s s' Hrun; simpl in Hrun.
  - injection Hrun as <-. exists []. simpl. by rewrite !app_nil_r.
  - destruct (step s l) as [s1 |] eqn:Hstep; [| done].
    destruct (IH _ _ Hrun) as (got & Hq & Hr).
    destruct (step_devPath _ _ _ Hstep) as [Hd _]. rewrite Hd in Hr.
    destruct s as [sub bus]. unfold step in Hstep.
    destruct l; simpl in *.
    + injection Hstep as <-. by exists got.
    + unfold send in Hstep. destruct (_ <? _)%nat; [| done]. injection Hstep as <-.
      simpl in *. exists got. split; [by rewrite Hq, <- app_assoc | done].
    + unfold recv in Hstep. destruct (queue (outCh sub)) as [|v q] eqn:Hout; [done |].
      injection Hstep as <-. exists got. split; [done |].
      rewrite Hr. unfold records, pending. simpl. rewrite Hout.
      by rewrite <- !app_assoc.
    + destruct (pump sub) eqn:Hpc; try done. destruct (ctxDone sub); [| done].
      injection Hstep as <-. exists got. split; [done |].
      rewrite Hr. unfold records, pending. simpl. rewrite Hpc. by rewrite !app_nil_r.
    + destruct (pump sub) eqn:Hpc; try done.
      unfold recv in Hstep. destruct (queue (sigCh sub)) as [|sig q] eqn:Hsig; [done |].
      injection Hstep as <-. exists (sig :: got). simpl in *.
      split; [by rewrite Hq |].
      rewrite Hr. unfold records, pending. simpl. rewrite Hpc, !app_nil_r.
      destruct (decodeStateChange (devPath sub) sig); simpl;
        by rewrite ?app_nil_r, <- ?app_assoc.
    + destruct (pump sub) eqn:Hpc; try done.
      unfold send in Hstep. destruct (_ <? _)%nat; [| done]. injection Hstep as <-.
      exists got. split; [done |].
      rewrite Hr. unfold records, pending. simpl. rewrite Hpc.
      by rewrite !app_nil_r, <- !app_assoc.
Qed.

(** C2: a signal with another path, another name, fewer than three body
    elements, or a non-uint32 among the first three, is dropped when the pump
    takes it: nothing is put on the output channel, no send is left pending,
    the pump is back at its select with the connection open and the wait
    group untouched, and every record that shows up later is decoded from the
    signals behind it in the queue or delivered afterwards. *)
Theorem unfit_signal_dropped sub (bus : St W) sig rest :
  unfit (devPath sub) sig ->
  pump sub = AtSelect ->
  queue (sigCh sub) = sig :: rest ->
  step (sub, bus) LSelectSignal
  = Some (mkSub (devPath sub) (conn sub) (ctxDone sub)
            (mkChan (capacity (sigCh sub)) rest) (outCh sub) AtSelect
            (wg sub) (taken sub), bus)
  /\ forall ls s',
       run (sub, bus) (LSelectSignal :: ls) = Some s' ->
       exists got,
         got ++ queue (sigCh s'.1) = rest ++ delivered ls
         /\ records s'.1 ++ pending s'.1
            = records sub ++ omap (decodeStateChange (devPath sub)) got.
Proof.
  intros Hunfit Hpc Hq.
  assert (Hstep : step (sub, bus) LSelectSignal
                  = Some (mkSub (devPath sub) (conn sub) (ctxDone sub)
                            (mkChan (capacity (sigCh sub)) rest) (outCh sub) AtSelect
                            (wg sub) (taken sub), bus)).
  { unfold step, recv. rewrite Hpc, Hq.
    by rewrite (decodeStateChange_unfit _ _ Hunfit). }
  split; [exact Hstep |].
  intros ls s' Hrun. simpl in Hrun. rewrite Hstep in Hrun.
  destruct (run_flow ls _ _ Hrun) as (got & Hgot & Hrec).
  exists got. split; [exact Hgot |].
  rewrite Hrec. unfold records, pending. simpl. by rewrite app_nil_r.
Qed.

(** C3: a signal from the subscribed path, with the state-change name and
    three uint32 values at the head of its body, makes the pump send exactly
    the record (body[0], body[1], body[2]), which goes to the back of the
    output channel as soon as the buffer has room (the send does not go
    through while it is full); and along any run the records put on the
    channel are the decodings of the signals taken, in delivery order. *)
Theorem wellformed_signal_forwarded sub (bus : St W) sig rest v0 v1 v2 tl :
  pump sub = AtSelect ->
  queue (sigCh sub) = sig :: rest ->
  Path sig = devPath sub ->
  Name sig = DeviceStateChangedSignal ->
  Body sig = VUint32 v0 :: VUint32 v1 :: VUint32 v2 :: tl ->
  step (sub, bus) LSelectSignal
  = Some (mkSub (devPath sub) (conn sub) (ctxDone sub)
            (mkChan (capacity (sigCh sub)) rest) (outCh sub) (Sending (v0, v1, v2))
            (wg sub) (taken sub), bus)
  /\ run (sub, bus) [LSelectSignal; LSend]
     = (if (length (queue (outCh sub)) <? capacity (outCh sub))%nat
        then Some (mkSub (devPath sub) (conn sub) (ctxDone sub)
                     (mkChan (capacity (sigCh sub)) rest)
                     (mkChan (capacity (outCh sub)) (queue (outCh sub) ++ [(v0, v1, v2)]))
                     AtSelect (wg sub) (taken sub), bus)
        else None)
  /\ forall ls s',
       run (sub, bus) ls = Some s' ->
       exists got,
         got ++ queue (sigCh s'.1) = queue (sigCh sub) ++ delivered ls
         /\ records s'.1 ++ pending s'.1
            = records sub ++ omap (decodeStateChange (devPath sub)) got.
Proof.
  intros Hpc Hq Hpath Hname Hbody.
  assert (Hstep : step (sub, bus) LSelectSignal
                  = Some (mkSub (devPath sub) (conn sub) (ctxDone sub)
                            (mkChan (capacity (sigCh sub)) rest) (outCh sub)
                            (Sending (v0, v1, v2)) (wg sub) (taken sub), bus)).
  { unfold step, recv. rewrite Hpc, Hq.
    by rewrite (decodeStateChange_wellformed _ _ _ _ _ _ Hpath Hname Hbody). }
  split; [exact Hstep |]. split.
  - simpl run. rewrite Hstep. unfold step, send. simpl.
    by destruct (_ <? _)%nat.
  - intros ls s' Hrun.
    destruct (run_flow ls _ _ Hrun) as (got & Hgot & Hrec).
    exists got. split; [exact Hgot |].
    rewrite Hrec. unfold pending. simpl. by rewrite Hpc, app_nil_r.
Qed.


End Pump.


(** ** The subscription theorems on the fake bus *)

Section SubscriptionScenarios.
Import dbus channel network fake.

Lemma unfit_signal_dropped_witness :
  let bad := mkSignal ":1.2" device DeviceStateChangedSignal
               [VUint32 100; VString "x"; VUint32 0] in
  let sub := mkSub device bus false (mkChan 20 [bad; deviceStateChanged device 100 70 0])
               (make 20) AtSelect 1 [] in
  unfit device bad
  /\ step (sub, connected quiet) LSelectSignal
     = Some (mkSub device bus false (mkChan 20 [deviceStateChanged device 100 70 0])
               (make 20) AtSelect 1 [], connected quiet)
  /\ forall s', run (sub, connected quiet) [LSelectSignal; LSelectSignal; LSend; LTake] = Some s' ->
       records s'.1 ++ pending s'.1 = [(100, 70, 0)].
Proof.
  intros bad sub.
  assert (Hbad : unfit device bad).
  { right. right. right. exists 1%nat, (VString "x"). repeat split; [lia | done]. }
  destruct (unfit_signal_dropped sub (connected quiet) bad
              [deviceStateChanged device 100 70 0] Hbad eq_refl eq_refl) as [Hstep Hlater].
  split; [exact Hbad |]. split; [exact Hstep |].
  intros s' Hrun. destruct (Hlater _ _ Hrun) as (got & Hgot & ->).
  assert (Hs' : s'.1 = mkSub device bus false (mkChan 20 []) (mkChan 20 []) AtSelect 1
                         [(100, 70, 0)]) by (injection Hrun as <-; reflexivity).
  rewrite Hs' in Hgot. simpl in Hgot. rewrite app_nil_r in Hgot. by subst got.
Defined.

Lemma wellformed_signal_forwarded_witness :
  let sig := deviceStateChanged device 100 70 0 in
  let sub := mkSub device bus false (mkChan 20 [sig]) (mkChan 20 [(70, 50, 0)]) AtSelect 1 [] in
  run (sub, connected quiet) [LSelectSignal; LSend]
  = Some (mkSub device bus false (mkChan 20 []) (mkChan 20 [(70, 50, 0); (100, 70, 0)])
            AtSelect 1 [], connected quiet).
Proof.
  intros sig sub.
  destruct (wellformed_signal_forwarded sub (connected quiet) sig [] 100 70 0 []
              eq_refl eq_refl eq_refl eq_refl eq_refl) as (_ & Hrun & _).
  exact Hrun.
Defined.



(** C8 on a bus that rejects match rules: DeviceStateChangeSubscribe drops
    the error of AddMatchSignal and hands back a running subscription with a
    nil error, where the manager subscription reports the rejection; when the
    bus cannot be reached both return an error. *)
Theorem DeviceStateChangeSubscribe_match_rejected :
  (AddMatchSignal bus [WithMatchObjectPath device] (world (connected rejecting))
   = (Some (errors_New "match rule rejected"), world (connected rejecting))
   /\ fst (DeviceStateChangeSubscribe device (start rejecting)) = Ok fresh
   /\ snd (fst (GetNetworkManagerStateSubscription (start rejecting)))
      = Some (errors_New "match rule rejected"))
  /\ (fst (DeviceStateChangeSubscribe device (start unreachable))
      = Err (fmt_Errorf "failed to connect to System Bus: %w"
               [arg_error (errors_New "no system bus")])
     /\ fst (GetNetworkManagerStateSubscription (start unreachable))
        = (unix.mkDBusSignalSubscription None None,
           Some (fmt_Errorf "failed to connect to SystemBus: %v"
                   [arg_error (errors_New "no system bus")]))).
Proof. repeat split; reflexivity. Qed.

(** C9 on a bus where nothing goes wrong, when NetworkManager then emits
    StateChanged(70): GetNetworkManagerStateSubscription hands back, with a
    nil error, the connection and a channel of capacity 20 whose elements are
    signals, registered with the match rule of the manager's StateChanged.
    What the subscriber receives from [C] is that signal as it came in, with
    its sender, path and name, the state code 70 (known to NM_STATE_MAP)
    still inside its body as an untyped value; the subscription has the two
    fields [C] and [Conn] and nothing to stop or join. *)
Theorem manager_subscription_delivers_raw_signal :
  exists sub ch,
    fst (GetNetworkManagerStateSubscription (start quiet)) = (sub, None)
    /\ sub = unix.mkDBusSignalSubscription (Some ch) (Some bus)
    /\ events (snd (GetNetworkManagerStateSubscription (start quiet)))
       = [EvSystemBus;
          EvCall (BusObjectOf bus) "org.freedesktop.DBus.AddMatch"
            [VString "type='signal',interface='org.freedesktop.NetworkManager',member='StateChanged',path='/org/freedesktop/NetworkManager'"];
          EvSignal bus 20]
    /\ exists ch',
         send ch (managerStateChanged 70) = Some ch'
         /\ recv ch'
            = Some (mkSignal ":1.2" "/org/freedesktop/NetworkManager"
                      "org.freedesktop.NetworkManager.StateChanged" [VUint32 70],
                    ch)
         /\ NM_STATE_MAP !! 70 = Some "Connected - Global".
Proof.
  exists (unix.mkDBusSignalSubscription (Some (make 20)) (Some bus)), (make 20).
  split; [reflexivity |]. split; [reflexivity |]. split; [reflexivity |].
  exists (mkChan 20 [managerStateChanged 70]).
  split; [reflexivity |]. split; [reflexivity |]. by vm_compute.
Qed.

End SubscriptionScenarios.


(** ** What the service functions do on the bus, on every path *)

Section ServiceEffects.
Import dbus systemd tally.
Context {W : Type} `{Transport W}.

Local Arguments String.eqb : simpl never.

Lemma countEv_snoc P (evs : list Event) ev :
  countEv P (evs ++ [ev]) = (countEv P evs + if P ev then 1 else 0)%nat.
Proof.
  unfold countEv. rewrite List.filter_app, length_app. simpl. by destruct (P ev).
Qed.

Section Adds.
Variable P : Event -> bool.

Lemma adds_ret {A} k (a : A) : adds (W:=W) P k (mret a).
Proof. intros st. simpl. lia. Qed.

Lemma adds_fail {A} k e : adds (W:=W) (A:=A) P k (fail e).
Proof. intros st. simpl. lia. Qed.

Lemma adds_weaken {A} k k' (m : M W A) : adds P k m -> (k <= k')%nat -> adds P k' m.
Proof. intros Hm Hk st. destruct (Hm st). lia. Qed.

Lemma adds_onErr {A} k wrap (m : M W A) : adds P k m -> adds P k (onErr wrap m).
Proof.
  intros Hm st. specialize (Hm st). unfold onErr. by destruct (m st) as [[a | e] st'].
Qed.

Lemma adds_bind {A B} k1 k2 (m : M W A) (f : A -> M W B) :
  adds P k1 m -> (forall a, adds P k2 (f a)) -> adds P (k1 + k2) (m ≫= f).
Proof.
  intros Hm Hf st. specialize (Hm st). unfold mbind, M_bind.
  destruct (m st) as [[a | e] st']; simpl in *; [| lia].
  specialize (Hf a st'). lia.
Qed.

(** The budget is spent after [m], or in [m]. *)
Lemma adds_bind_r {A B} k (m : M W A) (f : A -> M W B) :
  adds P 0 m -> (forall a, adds P k (f a)) -> adds P k (m ≫= f).
Proof. intros Hm Hf. by apply (adds_bind 0 k). Qed.

Lemma adds_bind_l {A B} k (m : M W A) (f : A -> M W B) :
  adds P k m -> (forall a, adds P 0 (f a)) -> adds P k (m ≫= f).
Proof.
  intros Hm Hf. eapply adds_weaken; [by apply (adds_bind k 0) | lia].
Qed.

Lemma adds_emit k ev : P ev = false -> adds (W:=W) P k (emit ev).
Proof.
  intros Hev st. unfold emit. simpl. rewrite countEv_snoc, Hev. lia.
Qed.

Lemma adds_log k format args :
  P (EvLog format args) = false -> adds (W:=W) P k (log_Printf format args).
Proof. apply adds_emit. Qed.

Lemma adds_Call_silent k o method args :
  P (EvCall o method args) = false -> adds P k (obj_Call o method args).
Proof.
  intros Hev st. unfold obj_Call. destruct (Call _ _ _ _) as [r w]. simpl.
  rewrite countEv_snoc, Hev. lia.
Qed.

Lemma adds_Call k o method args : (1 <= k)%nat -> adds P k (obj_Call o method args).
Proof.
  intros Hk st. unfold obj_Call. destruct (Call _ _ _ _) as [r w]. simpl.
  rewrite countEv_snoc. destruct (P _); lia.
Qed.

Lemma adds_SystemBus k : P EvSystemBus = false -> adds P k dbus_SystemBus.
Proof.
  intros Hev st. unfold dbus_SystemBus. destruct (SystemBus _) as [r w]. simpl.
  rewrite countEv_snoc, Hev. lia.
Qed.

Lemma adds_defer_Close {A} k c (body : M W A) :
  P (EvClose c) = false -> adds P k body -> adds P k (defer_Close c body).
Proof.
  intros Hev Hb st. specialize (Hb st). unfold defer_Close, conn_Close.
  destruct (body st) as [r st']. simpl in *. rewrite countEv_snoc, Hev. lia.
Qed.

Hypothesis Plog : forall format args, P (EvLog format args) = false.

Lemma adds_waitJobLoop target signals : adds P 0 (waitJobLoop (W:=W) target signals).
Proof.
  induction signals as [|sig rest IH]; [apply adds_fail |]. simpl.
  destruct (String.eqb (Name sig) _); [| exact IH].
  destruct (Body sig) as [|b0 [|b1 [|b2 [|b3 tl]]]];
    try (apply adds_bind_r; [by apply adds_log | intros _; exact IH]).
  destruct (ifaceEqObjectPath b1 target); [| exact IH].
  destruct b3; first [apply adds_ret | apply adds_fail].
Qed.

Lemma adds_waitJobComplete conn target :
  P (EvCall (BusObjectOf conn) "org.freedesktop.DBus.AddMatch"
       [VString systemdJobRemovedMatchRule]) = false ->
  P (EvSignal conn 10) = false ->
  adds P 0 (waitJobComplete conn target).
Proof.
  intros Hcall Hsig st. unfold waitJobComplete, obj_Call.
  destruct (Call _ _ _ _) as [r w]. simpl.
  destruct (SignalsWithin _ _ _) as [signals w']. simpl.
  match goal with
  | |- context [waitJobLoop target signals ?s] =>
      destruct (adds_waitJobLoop target signals s) as [Hlo Hhi]; simpl in Hlo, Hhi;
      rewrite !countEv_snoc, Hcall, Hsig in Hlo, Hhi
  end.
  lia.
Qed.

End Adds.

Local Arguments defer_Close : simpl never.

Ltac adds_leaf :=
  first
    [ apply adds_ret
    | apply adds_fail
    | apply adds_log; reflexivity
    | apply adds_SystemBus; reflexivity
    | apply adds_Call_silent; reflexivity
    | apply adds_Call; lia
    | apply adds_waitJobComplete; [intros; reflexivity | reflexivity | reflexivity] ].

Ltac adds_solve :=
  lazymatch goal with
  | |- adds _ _ (onErr _ _) => apply adds_onErr; adds_solve
  | |- adds _ _ (defer_Close _ _) => apply adds_defer_Close; [reflexivity | adds_solve]
  | |- adds _ _ (mbind _ _) =>
      first [ apply adds_bind_r; [solve [adds_solve] | intros; adds_solve]
            | apply adds_bind_l; [solve [adds_solve] | intros; adds_solve] ]
  | |- adds _ _ (match ?x with _ => _ end) => destruct x; adds_solve
  | |- adds _ _ (getSystemdObject _) => unfold getSystemdObject; adds_solve
  | |- adds _ _ (getSystemdUnitObject _ _) => unfold getSystemdUnitObject; adds_solve
  | |- adds _ _ (getUnitStatus _) => unfold getUnitStatus; adds_solve
  | |- adds _ _ (checkServiceStatus _ _) => unfold checkServiceStatus; adds_solve
  | |- adds _ _ (doStartService _ _) => unfold doStartService; adds_solve
  | |- adds _ _ (doStopService _ _) => unfold doStopService; adds_solve
  | |- adds _ _ (StartService _) => unfold StartService; adds_solve
  | |- adds _ _ (StopService _) => unfold StopService; adds_solve
  | |- adds _ _ (CheckServiceStatus _) => unfold CheckServiceStatus; adds_solve
  | |- _ => adds_leaf
  end.

(** X2: on every path StartService issues no StopUnit call and at most one
    StartUnit call, StopService no StartUnit call and at most one StopUnit
    call, and CheckServiceStatus neither. *)
Theorem service_requests_bounded name (st : St W) :
  (callsTo systemdStopUnitMethod (events (snd (StartService name st)))
   = callsTo systemdStopUnitMethod (events st)
   /\ (callsTo systemdStartUnitMethod (events (snd (StartService name st)))
       <= callsTo systemdStartUnitMethod (events st) + 1)%nat)
  /\ (callsTo systemdStartUnitMethod (events (snd (StopService name st)))
      = callsTo systemdStartUnitMethod (events st)
      /\ (callsTo systemdStopUnitMethod (events (snd (StopService name st)))
          <= callsTo systemdStopUnitMethod (events st) + 1)%nat)
  /\ mutatingCalls (events (snd (CheckServiceStatus name st))) = mutatingCalls (events st).
Proof.
  assert (H1 : adds (isCallTo systemdStopUnitMethod) 0 (StartService (W:=W) name))
    by adds_solve.
  assert (H2 : adds (isCallTo systemdStartUnitMethod) 1 (StartService (W:=W) name))
    by adds_solve.
  assert (H3 : adds (isCallTo systemdStartUnitMethod) 0 (StopService (W:=W) name))
    by adds_solve.
  assert (H4 : adds (isCallTo systemdStopUnitMethod) 1 (StopService (W:=W) name))
    by adds_solve.
  assert (H5 : adds (isCallTo systemdStartUnitMethod) 0 (CheckServiceStatus (W:=W) name))
    by adds_solve.
  assert (H6 : adds (isCallTo systemdStopUnitMethod) 0 (CheckServiceStatus (W:=W) name))
    by adds_solve.
  specialize (H1 st). specialize (H2 st). specialize (H3 st). specialize (H4 st).
  specialize (H5 st). specialize (H6 st).
  unfold mutatingCalls, callsTo, countEv in *. lia.
Qed.

Lemma isClose_self c : isClose c (EvClose c) = true.
Proof. unfold isClose. apply Nat.eqb_refl. Qed.

(** A deferred Close around a body that closes nothing: one more Close in
    the record, as its last event. *)
Lemma defer_Close_once {A} c (body : M W A) (st : St W) :
  adds (isClose c) 0 body ->
  countEv (isClose c) (events (snd (defer_Close c body st)))
  = S (countEv (isClose c) (events st))
  /\ last (events (snd (defer_Close c body st))) = Some (EvClose c).
Proof.
  intros Hb. specialize (Hb st). unfold defer_Close, conn_Close.
  destruct (body st) as [r st']. simpl in *.
  rewrite countEv_snoc, isClose_self, last_snoc. split; [lia | done].
Qed.

Ltac open_service Hbus :=
  unfold StartService, StopService, CheckServiceStatus;
  unfold mbind at 1; unfold M_bind at 1; unfold onErr at 1;
  rewrite Hbus.

(** X1: once dbus.SystemBus() has succeeded, StartService, StopService and
    CheckServiceStatus close that connection exactly once on every path, as
    the last thing they do on the bus; when it fails they return the wrapped
    error and do nothing else. *)
Theorem services_close_connection_once name (st st1 : St W) :
  (forall conn,
      dbus_SystemBus st = (Ok conn, st1) ->
      (countEv (isClose conn) (events (snd (StartService name st)))
       = S (countEv (isClose conn) (events st))
       /\ last (events (snd (StartService name st))) = Some (EvClose conn))
      /\ (countEv (isClose conn) (events (snd (StopService name st)))
          = S (countEv (isClose conn) (events st))
          /\ last (events (snd (StopService name st))) = Some (EvClose conn))
      /\ (countEv (isClose conn) (events (snd (CheckServiceStatus name st)))
          = S (countEv (isClose conn) (events st))
          /\ last (events (snd (CheckServiceStatus name st))) = Some (EvClose conn)))
  /\ (forall e,
        dbus_SystemBus st = (Err e, st1) ->
        let wrapped := fmt_Errorf "failed to connected to the system bus: %v" [arg_error e] in
        StartService name st = (Err wrapped, st1)
        /\ StopService name st = (Err wrapped, st1)
        /\ CheckServiceStatus name st = (Err wrapped, st1)).
Proof.
  split.
  - intros conn Hbus.
    assert (Hev : countEv (isClose conn) (events st1) = countEv (isClose conn) (events st)).
    { unfold dbus_SystemBus in Hbus. destruct (SystemBus _) as [r w].
      injection Hbus as _ <-. simpl. rewrite countEv_snoc. simpl. lia. }
    rewrite <- Hev.
    repeat split; open_service Hbus;
      match goal with
      | |- context [defer_Close conn ?body st1] =>
          apply (defer_Close_once conn body st1); adds_solve
      end.
  - intros e Hbus wrapped. repeat split; by open_service Hbus.
Qed.

(** A signal that is not decisive for the token is passed over. *)
Lemma waitJobLoop_pass target sig rest (st : St W) :
  ~ decisive target sig ->
  exists st1, waitJobLoop target (sig :: rest) st = waitJobLoop target rest st1.
Proof.
  intros Hno. simpl.
  destruct (String.eqb (Name sig) _) eqn:Hname; [| by exists st].
  apply String.eqb_eq in Hname.
  destruct (Body sig) as [|b0 [|b1 [|b2 [|b3 tl]]]] eqn:Hbody;
    try (eexists; reflexivity).
  destruct (ifaceEqObjectPath b1 target) eqn:Hpath; [| by exists st].
  destruct b1; try discriminate. simpl in Hpath. apply String.eqb_eq in Hpath. subst p.
  exfalso. apply Hno. unfold decisive. rewrite Hbody. simpl. repeat split; [done | lia].
Qed.

(** X3: the wait is decided by the first received JobRemoved notification for
    the token that has at least four body elements: its fourth element is the
    result when it is a string and makes the wait fail otherwise; whatever is
    received after it plays no part. *)
Theorem first_decisive_signal_decides conn target (st : St W) pre sig post b0 b2 b3 tl :
  jobSignals conn st = pre ++ sig :: post ->
  (forall s, s ∈ pre -> ~ decisive target s) ->
  Name sig = dbusJobRemovedSignalName ->
  Body sig = b0 :: VObjectPath target :: b2 :: b3 :: tl ->
  fst (waitJobComplete conn target st)
  = match b3 with
    | VString r => Ok r
    | _ => Err (fmt_Errorf "unexpected jobResult type, got value: %v" [arg_values [b3]])
    end.
Proof.
  intros Hsigs Hpre Hname Hbody.
  destruct (waitJobComplete_loop conn target st) as (st1 & -> & _).
  rewrite Hsigs. clear Hsigs. revert st1.
  induction pre as [|s pre IH]; intros st1.
  - simpl. rewrite Hname, Hbody. unfold dbusJobRemovedSignalName.
    rewrite String.eqb_refl. simpl. rewrite String.eqb_refl. by destruct b3.
  - destruct (waitJobLoop_pass target s (pre ++ sig :: post) st1) as [st2 Heq].
    { apply Hpre, elem_of_cons. by left. }
    simpl app. rewrite Heq. apply IH.
    intros s' Hs'. apply Hpre, elem_of_cons. by right.
Qed.

(** X4: an ActiveState reply that cannot be stored into a string leaves the
    state empty, which is neither "inactive" nor "failed": the unit counts as
    running and StartService returns nil without a StartUnit call. *)
Theorem undecodable_state_counts_as_running name (st0 st1 st2 st3 : St W)
    conn systemdObj unitObj body :
  dbus_SystemBus st0 = (Ok conn, st1) ->
  Object conn systemdService systemObjectPath = Some systemdObj ->
  getSystemdUnitObject conn name st1 = (Ok unitObj, st2) ->
  obj_Call unitObj dbusGetPropertyMethod
    [VString systemdUnit; VString systemdUnitStateProperty] st2 = (Ok body, st3) ->
  StoreString body = None ->
  fst (getUnitStatus unitObj st2) = Ok ""
  /\ fst (checkServiceStatus conn name st1) = Ok (unitObj, true)
  /\ fst (StartService name st0) = Ok tt
  /\ mutatingCalls (events (snd (StartService name st0))) = mutatingCalls (events st0).
Proof.
  intros Hbus Hobj Hunit Hcall Hstore.
  assert (Hstatus : getUnitStatus unitObj st2 = (Ok "", st3)).
  { unfold getUnitStatus, mbind, M_bind, onErr. by rewrite Hcall, Hstore. }
  assert (Hcheck : checkServiceStatus conn name st1
                   = (Ok (unitObj, true),
                      snd (log_Printf "Service %s has unit state: %s"
                             [arg_string name; arg_string ""] st3))).
  { unfold checkServiceStatus, mbind, M_bind. by rewrite Hunit, Hstatus. }
  destruct (StartService_running name st0 st1 _ conn systemdObj unitObj Hbus Hobj Hcheck)
    as [Hrun Hcalls].
  split; [by rewrite Hstatus |]. split; [by rewrite Hcheck |].
  split; [by rewrite Hrun | exact Hcalls].
Qed.

Local Arguments checkServiceStatus : simpl never.
Local Arguments doStartService : simpl never.
Local Arguments doStopService : simpl never.
Local Arguments waitJobComplete : simpl never.

Ltac into_service Hbus Hobj :=
  unfold StartService, StopService, getSystemdObject;
  unfold mbind, M_bind, onErr, defer_Close;
  rewrite Hbus; simpl; rewrite Hobj; simpl.

(** X5: when the status pre-check fails, StartService and StopService return
    its error as it is; when the StartUnit or StopUnit request fails they
    return that error wrapped; in both cases the only thing that follows is
    the closing of the connection. *)
Theorem request_failure_stops_early name (st0 st1 st2 st3 : St W)
    conn systemdObj unitObj e :
  dbus_SystemBus st0 = (Ok conn, st1) ->
  Object conn systemdService systemObjectPath = Some systemdObj ->
  (checkServiceStatus conn name st1 = (Err e, st2) ->
     StartService name st0 = (Err e, conn_Close conn st2)
     /\ StopService name st0 = (Err e, conn_Close conn st2))
  /\ (checkServiceStatus conn name st1 = (Ok (unitObj, false), st2) ->
      doStartService systemdObj name st2 = (Err e, st3) ->
      StartService name st0
      = (Err (fmt_Errorf "error requesting start job for service: %v" [arg_error e]),
         conn_Close conn st3))
  /\ (checkServiceStatus conn name st1 = (Ok (unitObj, true), st2) ->
      doStopService systemdObj name st2 = (Err e, st3) ->
      StopService name st0
      = (Err (fmt_Errorf "error requesting stop job for service: %v" [arg_error e]),
         conn_Close conn st3)).
Proof.
  intros Hbus Hobj. split; [| split].
  - intros Hcheck. split; into_service Hbus Hobj; by rewrite Hcheck.
  - intros Hcheck Hdo. into_service Hbus Hobj. rewrite Hcheck. simpl. by rewrite Hdo.
  - intros Hcheck Hdo. into_service Hbus Hobj. rewrite Hcheck. simpl. by rewrite Hdo.
Qed.

(** X6: when the job result is not "done" and the second status query
    fails, StartService and StopService return an error that wraps the
    query's error and does not carry the job result, and then only close the
    connection. *)
Theorem requery_failure_reported name (st0 st1 st2 st3 st4 st6 : St W)
    conn systemdObj unitObj job r e :
  dbus_SystemBus st0 = (Ok conn, st1) ->
  Object conn systemdService systemObjectPath = Some systemdObj ->
  waitJobComplete conn job st3 = (Ok r, st4) ->
  r <> "done" ->
  (checkServiceStatus conn name st1 = (Ok (unitObj, false), st2) ->
   doStartService systemdObj name st2 = (Ok job, st3) ->
   checkServiceStatus conn name
     (snd (log_Printf "Job to start service %s completed with result: %s"
             [arg_string name; arg_string r] st4)) = (Err e, st6) ->
   StartService name st0
   = (Err (fmt_Errorf "job to start unit failed and checking state of service gave error: %v"
             [arg_error e]),
      conn_Close conn st6))
  /\ (checkServiceStatus conn name st1 = (Ok (unitObj, true), st2) ->
      doStopService systemdObj name st2 = (Ok job, st3) ->
      checkServiceStatus conn name
        (snd (log_Printf "Job to stop service %s completed with result: %s"
                [arg_string name; arg_string r] st4)) = (Err e, st6) ->
      StopService name st0
      = (Err (fmt_Errorf "job to stop unit failed and checking state of service gave error: %v"
                [arg_error e]),
         conn_Close conn st6)).
Proof.
  intros Hbus Hobj Hwait Hr. apply String.eqb_neq in Hr.
  split; intros Hcheck Hdo Hagain;
    into_service Hbus Hobj; rewrite Hcheck; simpl; rewrite Hdo; simpl;
    rewrite Hwait; simpl; unfold log_Printf, emit in *; simpl in *;
    by rewrite Hr, Hagain.
Qed.

End ServiceEffects.


(** ** The service effects on the scripted bus *)

Section ServiceEffectScenarios.
Import dbus systemd tally script.

Lemma services_close_connection_once_witness :
  let st := play [Ok [VObjectPath unitPath]; Ok [VString "inactive"];
                  Ok [VObjectPath "/job/7"]; Ok []]
              [fake.jobRemoved "/job/7" "demo" "done"] in
  (fst (StartService "demo" st) = Ok tt
   /\ countEv (isClose bus) (events (snd (StartService "demo" st))) = 1%nat
   /\ last (events (snd (StartService "demo" st))) = Some (EvClose bus)
   /\ closes (world (snd (StartService "demo" st))) = 1%nat)
  /\ StopService "demo" down
     = (Err (fmt_Errorf "failed to connected to the system bus: %v"
               [arg_error (errors_New "no system bus")]),
        snd (dbus_SystemBus down)).
Proof.
  intros st.
  assert (Hup : dbus_SystemBus st = (Ok bus, snd (dbus_SystemBus st))) by reflexivity.
  assert (Hdown : dbus_SystemBus down
                  = (Err (errors_New "no system bus"), snd (dbus_SystemBus down)))
    by reflexivity.
  destruct (proj1 (services_close_connection_once "demo" st _) bus Hup)
    as ((Hcount & Hlast) & _).
  destruct (proj2 (services_close_connection_once "demo" down _) _ Hdown)
    as (_ & Hstop & _).
  split; [| exact Hstop].
  split; [reflexivity |]. split; [exact Hcount |]. split; [exact Hlast | reflexivity].
Defined.

Lemma first_decisive_signal_decides_witness :
  let short := mkSignal ":1.1" "/org/freedesktop/systemd1" dbusJobRemovedSignalName
                 [VUint32 1; VObjectPath "/job/7"; VString "demo"] in
  let sigs := [short; fake.jobRemoved "/job/9" "demo" "done";
               fake.jobRemoved "/job/7" "demo" "failed";
               fake.jobRemoved "/job/7" "demo" "done"] in
  jobSignals bus (play [Ok []] sigs) = sigs
  /\ fst (waitJobComplete bus "/job/7" (play [Ok []] sigs)) = Ok "failed".
Proof.
  intros short sigs.
  assert (Hsigs : jobSignals bus (play [Ok []] sigs)
                  = [short; fake.jobRemoved "/job/9" "demo" "done"]
                    ++ fake.jobRemoved "/job/7" "demo" "failed"
                    :: [fake.jobRemoved "/job/7" "demo" "done"]) by reflexivity.
  split; [reflexivity |].
  apply (first_decisive_signal_decides bus "/job/7" _ _ _ _
           (VUint32 1) (VString "demo") (VString "failed") [] Hsigs);
    [| reflexivity | reflexivity].
  intros s Hin (_ & Hlen & Hpath).
  apply elem_of_cons in Hin as [-> | Hin]; [simpl in Hlen; lia |].
  apply list_elem_of_singleton in Hin. subst s. discriminate Hpath.
Defined.

Lemma undecodable_state_counts_as_running_witness :
  let st := play [Ok [VObjectPath unitPath]; Ok [VBool true]] [] in
  StoreString [VBool true] = None
  /\ fst (checkServiceStatus bus "demo" (snd (dbus_SystemBus st))) = Ok (demoUnit, true)
  /\ fst (StartService "demo" st) = Ok tt
  /\ mutatingCalls (events (snd (StartService "demo" st))) = 0%nat.
Proof.
  intros st.
  assert (Hbus : dbus_SystemBus st = (Ok bus, snd (dbus_SystemBus st))) by reflexivity.
  assert (Hobj : Object bus systemdService systemObjectPath = Some systemdObj)
    by reflexivity.
  assert (Hunit : getSystemdUnitObject bus "demo" (snd (dbus_SystemBus st))
                  = (Ok demoUnit,
                     snd (getSystemdUnitObject bus "demo" (snd (dbus_SystemBus st)))))
    by reflexivity.
  assert (Hcall : obj_Call demoUnit dbusGetPropertyMethod
                    [VString systemdUnit; VString systemdUnitStateProperty]
                    (snd (getSystemdUnitObject bus "demo" (snd (dbus_SystemBus st))))
                  = (Ok [VBool true],
                     snd (obj_Call demoUnit dbusGetPropertyMethod
                            [VString systemdUnit; VString systemdUnitStateProperty]
                            (snd (getSystemdUnitObject bus "demo" (snd (dbus_SystemBus st)))))))
    by reflexivity.
  assert (Hstore : StoreString [VBool true] = None) by reflexivity.
  destruct (undecodable_state_counts_as_running "demo" _ _ _ _ bus systemdObj demoUnit
              [VBool true] Hbus Hobj Hunit Hcall Hstore) as (_ & Hcheck & Hstart & Hcalls).
  split; [exact Hstore |]. split; [exact Hcheck |]. split; [exact Hstart | exact Hcalls].
Defined.

Lemma request_failure_stops_early_witness :
  let gone := play [Err (errors_New "no such unit")] [] in
  let masked := play [Ok [VObjectPath unitPath]; Ok [VString "inactive"];
                      Err (errors_New "unit is masked")] [] in
  fst (StartService "demo" gone)
  = Err (fmt_Errorf "failed to get unit path %s: %v"
           [arg_string "demo"; arg_error (errors_New "no such unit")])
  /\ fst (StartService "demo" masked)
     = Err (fmt_Errorf "error requesting start job for service: %v"
              [arg_error (fmt_Errorf "failed to start unit: %v"
                            [arg_error (errors_New "unit is masked")])])
  /\ closes (world (snd (StartService "demo" masked))) = 1%nat.
Proof.
  intros gone masked.
  assert (Hobj : Object bus systemdService systemObjectPath = Some systemdObj)
    by reflexivity.
  assert (Hb1 : dbus_SystemBus gone = (Ok bus, snd (dbus_SystemBus gone))) by reflexivity.
  assert (Hc1 : checkServiceStatus bus "demo" (snd (dbus_SystemBus gone))
                = (Err (fmt_Errorf "failed to get unit path %s: %v"
                          [arg_string "demo"; arg_error (errors_New "no such unit")]),
                   snd (checkServiceStatus bus "demo" (snd (dbus_SystemBus gone)))))
    by reflexivity.
  assert (Hb2 : dbus_SystemBus masked = (Ok bus, snd (dbus_SystemBus masked)))
    by reflexivity.
  assert (Hc2 : checkServiceStatus bus "demo" (snd (dbus_SystemBus masked))
                = (Ok (demoUnit, false),
                   snd (checkServiceStatus bus "demo" (snd (dbus_SystemBus masked)))))
    by reflexivity.
  assert (Hd2 : doStartService systemdObj "demo"
                  (snd (checkServiceStatus bus "demo" (snd (dbus_SystemBus masked))))
                = (Err (fmt_Errorf "failed to start unit: %v"
                          [arg_error (errors_New "unit is masked")]),
                   snd (doStartService systemdObj "demo"
                          (snd (checkServiceStatus bus "demo" (snd (dbus_SystemBus masked)))))))
    by reflexivity.
  destruct (proj1 (request_failure_stops_early "demo" gone _ _ gone bus systemdObj demoUnit
                     _ Hb1 Hobj) Hc1) as [Hstart1 _].
  pose proof (proj1 (proj2 (request_failure_stops_early "demo" masked _ _ _ bus systemdObj
                              demoUnit _ Hb2 Hobj)) Hc2 Hd2) as Hreq.
  split; [by rewrite Hstart1 |]. split; by rewrite Hreq.
Defined.

Lemma requery_failure_reported_witness :
  let st := play [Ok [VObjectPath unitPath]; Ok [VString "inactive"];
                  Ok [VObjectPath "/job/7"]; Ok []; Err (errors_New "bus went away")]
              [fake.jobRemoved "/job/7" "demo" "failed"] in
  fst (StartService "demo" st)
  = Err (fmt_Errorf "job to start unit failed and checking state of service gave error: %v"
           [arg_error (fmt_Errorf "failed to get unit path %s: %v"
                         [arg_string "demo"; arg_error (errors_New "bus went away")])]).
Proof.
  intros st.
  assert (Hobj : Object bus systemdService systemObjectPath = Some systemdObj)
    by reflexivity.
  assert (Hb : dbus_SystemBus st = (Ok bus, snd (dbus_SystemBus st))) by reflexivity.
  assert (Hc : checkServiceStatus bus "demo" (snd (dbus_SystemBus st))
               = (Ok (demoUnit, false),
                  snd (checkServiceStatus bus "demo" (snd (dbus_SystemBus st)))))
    by reflexivity.
  set (st2 := snd (checkServiceStatus bus "demo" (snd (dbus_SystemBus st)))) in *.
  assert (Hd : doStartService systemdObj "demo" st2
               = (Ok "/job/7", snd (doStartService systemdObj "demo" st2))) by reflexivity.
  set (st3 := snd (doStartService systemdObj "demo" st2)) in *.
  assert (Hw : waitJobComplete bus "/job/7" st3
               = (Ok "failed", snd (waitJobComplete bus "/job/7" st3))) by reflexivity.
  set (st4 := snd (waitJobComplete bus "/job/7" st3)) in *.
  assert (Hne : "failed" <> "done") by discriminate.
  assert (Ha : checkServiceStatus bus "demo"
                 (snd (log_Printf "Job to start service %s completed with result: %s"
                         [arg_string "demo"; arg_string "failed"] st4))
               = (Err (fmt_Errorf "failed to get unit path %s: %v"
                         [arg_string "demo"; arg_error (errors_New "bus went away")]),
                  snd (checkServiceStatus bus "demo"
                         (snd (log_Printf "Job to start service %s completed with result: %s"
                                 [arg_string "demo"; arg_string "failed"] st4)))))
    by reflexivity.
  by rewrite (proj1 (requery_failure_reported "demo" st _ st2 st3 st4 _ bus systemdObj
                       demoUnit "/job/7" "failed" _ Hb Hobj Hw Hne) Hc Hd Ha).
Defined.

End ServiceEffectScenarios.


(** ** Life cycle of a device state-change subscription *)

Section PumpLifecycle.
Import dbus channel network tally.
Context {W : Type} `{Transport W}.

Local Arguments String.eqb : simpl never.
Local Arguments step : simpl never.

(** X7: the pump decodes a signal exactly when it comes from the subscribed
    path under the state-change name with three uint32 values at the head of
    its body (whatever follows them is ignored), and the record is those
    three values; every other signal is one of the unfit kinds. *)
Theorem decodeStateChange_characterised devPath sig :
  (forall v0 v1 v2,
      decodeStateChange devPath sig = Some (v0, v1, v2)
      <-> Path sig = devPath /\ Name sig = DeviceStateChangedSignal
          /\ exists tl, Body sig = VUint32 v0 :: VUint32 v1 :: VUint32 v2 :: tl)
  /\ (decodeStateChange devPath sig = None <-> unfit devPath sig).
Proof.
  split.
  - intros v0 v1 v2. split; [apply decodeStateChange_Some |].
    intros (Hp & Hn & tl & Hb). by apply (decodeStateChange_wellformed _ _ _ _ _ tl).
  - split; [| apply decodeStateChange_unfit].
    unfold decodeStateChange, unfit.
    destruct (String.eqb_spec (Path sig) devPath) as [Hp | Hp]; [| by left].
    destruct (String.eqb_spec (Name sig) DeviceStateChangedSignal) as [Hn | Hn];
      [| by right; left].
    destruct (Nat.leb_spec 3 (length (Body sig))) as [Hl | Hl];
      [| by right; right; left].
    simpl. intros Hnone. right. right. right.
    destruct (Body sig) as [|b0 [|b1 [|b2 tl]]]; simpl in Hl; try lia. simpl in Hnone.
    destruct b0; try (by exists 0%nat; eexists; repeat split; [lia | done]).
    destruct b1; try (by exists 1%nat; eexists; repeat split; [lia | done]).
    destruct b2; by exists 2%nat; eexists; repeat split; [lia | done].
Qed.

(** X10: a pump that is blocked sending because the output channel is full
    cannot do anything after Stop(), not even return, until the subscriber
    takes a record; the blocked record is then still put on the channel
    before the pump returns and Join() can return. *)
Theorem blocked_send_outlasts_stop sub (bus : St W) values :
  pump sub = Sending values ->
  length (queue (outCh sub)) = capacity (outCh sub) ->
  (0 < capacity (outCh sub))%nat ->
  wg sub = 1%nat ->
  (forall s1 l,
      step (sub, bus) LStop = Some s1 -> pumpLabel l = true -> step s1 l = None)
  /\ exists s',
       run (sub, bus) [LStop; LTake; LSend; LSelectDone] = Some s'
       /\ pump s'.1 = Returned
       /\ last (queue (outCh s'.1)) = Some values
       /\ JoinReturns s'.1 = true
       /\ s'.2 = conn_Close (conn sub) bus.
Proof.
  intros Hpc Hfull Hcap Hwg. split.
  - intros s1 l Hstop Hl. injection Hstop as <-.
    destruct l; try done; unfold step, send; simpl; rewrite Hpc; try done.
    rewrite Hfull. by rewrite Nat.ltb_irrefl.
  - destruct (queue (outCh sub)) as [|v q] eqn:Hq; [simpl in Hfull; lia |].
    simpl in Hfull.
    eexists. unfold run, step, recv, send. simpl. rewrite Hq, Hpc. simpl.
    rewrite (proj2 (Nat.ltb_lt (length q) (capacity (outCh sub)))) by lia. simpl.
    split; [reflexivity |]. simpl. rewrite last_snoc.
    unfold JoinReturns. simpl. by rewrite Hwg.
Qed.

(** X11: GetNetworkManagerStateSubscription never closes a connection; when
    the AddMatch call is rejected it returns the call's error with an empty
    subscription (nil channel, nil connection), so the connection it has just
    opened is left open and is not handed to the caller. *)
Theorem manager_subscription_rejected_leaves_connection (st : St W) :
  (forall c,
      countEv (isClose c) (events (snd (GetNetworkManagerStateSubscription st)))
      = countEv (isClose c) (events st))
  /\ (forall conn w e w',
        SystemBus (world st) = (Ok conn, w) ->
        Call (BusObjectOf conn) unix.MethodDbusAddMatchRule
          [VString "type='signal',interface='org.freedesktop.NetworkManager',member='StateChanged',path='/org/freedesktop/NetworkManager'"]
          w = (Err e, w') ->
        GetNetworkManagerStateSubscription st
        = ((unix.mkDBusSignalSubscription None None, Some e),
           mkSt w' (events st
                    ++ [EvSystemBus;
                        EvCall (BusObjectOf conn) unix.MethodDbusAddMatchRule
                          [VString "type='signal',interface='org.freedesktop.NetworkManager',member='StateChanged',path='/org/freedesktop/NetworkManager'"]]))).
Proof.
  split.
  - intros c.
    unfold GetNetworkManagerStateSubscription, unix.MakeDBusSignalSubscription.
    unfold mbind, M_bind, mret, M_ret, onErr, emit, obj_Call, dbus_SystemBus.
    destruct (SystemBus (world st)) as [[conn | e] w]; simpl;
      [| by rewrite countEv_snoc; simpl; lia].
    destruct (Call _ _ _ _) as [[body | e] w']; simpl;
      rewrite !countEv_snoc; simpl; lia.
  - intros conn w e w' Hbus Hcall.
    unfold GetNetworkManagerStateSubscription, unix.MakeDBusSignalSubscription.
    unfold mbind, M_bind, mret, M_ret, onErr, emit, obj_Call, dbus_SystemBus.
    rewrite Hbus. simpl.
    change ("type='signal',interface='" +:+ unix.NetworkManagerInterface
            +:+ "',member='" +:+ unix.NetworkManagerSignalState
            +:+ "',path='" +:+ unix.NetworkManagerObjectPath +:+ "'")
      with "type='signal',interface='org.freedesktop.NetworkManager',member='StateChanged',path='/org/freedesktop/NetworkManager'".
    rewrite Hcall. simpl. by rewrite <- app_assoc.
Qed.

End PumpLifecycle.


(** ** The life-cycle theorems on the fake bus *)

Section PumpLifecycleScenarios.
Import dbus channel network tally fake.

Lemma decodeStateChange_characterised_witness :
  decodeStateChange device
    (mkSignal ":1.2" device DeviceStateChangedSignal
       [VUint32 100; VUint32 70; VUint32 0; VString "extra"]) = Some (100, 70, 0)
  /\ unfit device (managerStateChanged 70).
Proof.
  split.
  - apply (proj1 (decodeStateChange_characterised device _) 100 70 0).
    split; [reflexivity |]. split; [reflexivity |]. by exists [VString "extra"].
  - by apply (proj2 (decodeStateChange_characterised device (managerStateChanged 70))).
Defined.

Lemma blocked_send_outlasts_stop_witness :
  let sub := mkSub device bus false (make 20) (mkChan 20 (replicate 20 (100, 70, 0)))
               (Sending (30, 100, 0)) 1 [] in
  step (mkSub device bus true (make 20) (mkChan 20 (replicate 20 (100, 70, 0)))
          (Sending (30, 100, 0)) 1 [], connected quiet) LSelectDone = None
  /\ exists s',
       run (sub, connected quiet) [LStop; LTake; LSend; LSelectDone] = Some s'
       /\ pump s'.1 = Returned
       /\ last (queue (outCh s'.1)) = Some (30, 100, 0)
       /\ JoinReturns s'.1 = true.
Proof.
  intros sub.
  assert (Hcap : (0 < capacity (outCh sub))%nat) by (simpl; lia).
  destruct (blocked_send_outlasts_stop sub (connected quiet) (30, 100, 0)
              eq_refl eq_refl Hcap eq_refl) as (Hstuck & s' & Hrun & Hp & Hl & Hj & _).
  split; [by apply (Hstuck _ LSelectDone eq_refl) |].
  exists s'. split; [exact Hrun |]. split; [exact Hp |]. split; [exact Hl | exact Hj].
Defined.

Lemma manager_subscription_rejected_leaves_connection_witness :
  fst (GetNetworkManagerStateSubscription (start rejecting))
  = (unix.mkDBusSignalSubscription None None, Some (errors_New "match rule rejected"))
  /\ openConns (world (snd (GetNetworkManagerStateSubscription (start rejecting)))) = 1%nat.
Proof.
  assert (Hbus : SystemBus (world (start rejecting))
                 = (Ok bus, world (connected rejecting))) by reflexivity.
  assert (Hcall : Call (BusObjectOf bus) unix.MethodDbusAddMatchRule
                    [VString "type='signal',interface='org.freedesktop.NetworkManager',member='StateChanged',path='/org/freedesktop/NetworkManager'"]
                    (world (connected rejecting))
                  = (Err (errors_New "match rule rejected"), world (connected rejecting)))
    by reflexivity.
  rewrite (proj2 (manager_subscription_rejected_leaves_connection (start rejecting))
             _ _ _ _ Hbus Hcall).
  split; reflexivity.
Defined.

End PumpLifecycleScenarios.


(** ** Queries to NetworkManager *)

Section Queries.
Import dbus queries.
Context {W : Type} `{QueryBus W}.

Local Arguments String.eqb : simpl never.

(** X12: GetPrimaryDevicePath returns the first device of the primary
    connection; with no device it fails, with more than one it logs a warning
    and still returns the first; its index into the list never panics. *)
Theorem primary_device_is_first conn (st st2 : QSt W) nm reply w1 connPath connObj ps :
  getNetworkManagerObject conn = Some nm ->
  Invoke nm MethodDbusGetProperty
    [ArgString NetworkManagerInterface; ArgString "PrimaryConnection"] (qworld st)
  = (Ok reply, w1) ->
  IntoObjectPath reply = Ok connPath ->
  ObjectAt conn NetworkManagerInterface connPath = Some connObj ->
  getDevicesFromConnection connObj
    (mkQSt w1 (qlog st ++ [QCall nm MethodDbusGetProperty
                             [ArgString NetworkManagerInterface;
                              ArgString "PrimaryConnection"]]))
  = (Val ps, st2) ->
  GetPrimaryDevicePath conn st
  = match ps with
    | [] => (Fail (errors_New "no devices are associated with the primary connection"), st2)
    | [p] => (Val p, st2)
    | p :: _ =>
        (Val p,
         mkQSt (qworld st2)
           (qlog st2 ++ [QLog "[Warning] More than one device path for primary connection." []]))
    end.
Proof.
  intros Hnm Hcall Hstore Hobj Hdevs.
  unfold GetPrimaryDevicePath, mbind, Q_bind, call. rewrite Hnm, Hcall. simpl.
  rewrite Hstore. simpl. rewrite Hobj, Hdevs.
  by destruct ps as [|p [|p' ps']].
Qed.

(** Reading the SSIDs keeps the length of the slice; every slot is as it was
    or holds an SSID together with the access point of that index. *)
Lemma readSSIDs_slots conn aps : forall i infos (st st' : QSt W) out,
  readSSIDs conn i aps infos st = (Val out, st') ->
  length out = length infos
  /\ forall j, out !! j = infos !! j
               \/ exists k ap ssid, aps !! k = Some ap /\ j = (i + k)%nat
                                    /\ out !! j = Some (mkSSIDInfo ssid ap).
Proof.
  induction aps as [|ap rest IH]; intros i infos st st' out; simpl.
  - intros [= <- <-]. split; [done |]. by left.
  - unfold mbind, Q_bind, call.
    destruct (ObjectAt conn NetworkManagerInterface ap) as [o |]; [| done].
    destruct (Invoke _ _ _ _) as [r w]. simpl.
    destruct (stored IntoBytes r) as [ssid | err]; simpl; intros Hrun;
      apply IH in Hrun as [Hlen Hslots].
    + rewrite length_insert in Hlen. split; [exact Hlen |].
      intros j. destruct (Hslots j) as [Hsame | (k & ap' & ssid' & Hk & -> & Hout)].
      * destruct (decide (j = i)) as [-> | Hne].
        -- destruct (decide (i < length infos)%nat) as [Hlt | Hge].
           ++ right. exists 0%nat, ap, ssid. rewrite Nat.add_0_r.
              split; [done |]. split; [done |].
              by rewrite Hsame, list_lookup_insert_eq.
           ++ left. rewrite Hsame. by rewrite list_insert_ge by lia.
        -- left. rewrite Hsame. by apply list_lookup_insert_ne.
      * right. exists (S k), ap', ssid'. split; [done |]. split; [lia | done].
    + split; [exact Hlen |].
      intros j. destruct (Hslots j) as [Hsame | (k & ap' & ssid' & Hk & -> & Hout)];
        [by left |].
      right. exists (S k), ap', ssid'. split; [done |]. split; [lia | done].
Qed.

(** Reading the SSIDs ends with a value or in a panic, never with an error. *)
Lemma readSSIDs_no_error conn aps : forall i infos (st : QSt W) e,
  fst (readSSIDs conn i aps infos st) <> Fail e.
Proof.
  induction aps as [|ap rest IH]; intros i infos st e; simpl; [done |].
  unfold mbind, Q_bind, call.
  destruct (ObjectAt conn NetworkManagerInterface ap) as [o |]; [| done].
  destruct (Invoke _ _ _ _) as [r w]. simpl.
  destruct (stored IntoBytes r); simpl; apply IH.
Qed.

(** The loop that fills the slice index by index computes the entries of
    [scanEntries] behind what it has filled so far. *)
Lemma readSSIDs_scanEntries conn aps : forall pre (st : QSt W),
  readSSIDs conn (length pre) aps (pre ++ replicate (length aps) zeroSSIDInfo) st
  = (entries ← scanEntries conn aps; mret (pre ++ entries)) st.
Proof.
  induction aps as [|ap rest IH]; intros pre st; simpl.
  - unfold mbind, Q_bind, mret, Q_ret. by rewrite app_nil_r.
  - unfold mbind, Q_bind, call.
    destruct (ObjectAt conn NetworkManagerInterface ap) as [o |]; [| done].
    destruct (Invoke _ _ _ _) as [r w]. simpl.
    destruct (stored IntoBytes r) as [ssid | err]; simpl.
    + rewrite insert_app_r_alt by lia. rewrite Nat.sub_diag. simpl.
      rewrite (cons_middle _ pre), app_assoc.
      replace (S (length pre)) with (length (pre ++ [mkSSIDInfo ssid ap]))
        by (rewrite length_app; simpl; lia).
      rewrite IH. unfold mbind, Q_bind, mret, Q_ret.
      destruct (scanEntries conn rest _) as [[es | e |] st2]; [| done | done].
      by rewrite <- app_assoc.
    + rewrite (cons_middle _ pre), app_assoc.
      replace (S (length pre)) with (length (pre ++ [zeroSSIDInfo]))
        by (rewrite length_app; simpl; lia).
      rewrite IH. unfold mbind, Q_bind, mret, Q_ret.
      destruct (scanEntries conn rest _) as [[es | e |] st2]; [| done | done].
      by rewrite <- app_assoc.
Qed.

(** X13: once the scan was requested and the list of access points read,
    GetAvailableSSIDs is the scan spelt out by [scanEntries]: the access
    points are read in their order, each read is one Properties.Get call for
    [Ssid] on that access point, and the entry at its index is the bytes that
    read stored together with the access point's path, or the zero entry,
    with a warning naming the error logged right after the call, when the
    read or its store failed.  It does not fail any more, and a result has
    one entry per access point. *)
Theorem scan_reads_each_access_point conn devObj (st : QSt W) r1 w1 r2 w2 aps :
  Invoke devObj NetworkManagerMethodWirelessSSIDScan [ArgOptions ∅] (qworld st)
  = (Ok r1, w1) ->
  IntoNothing r1 = None ->
  Invoke devObj NetworkManagerMethodGetSSIDs [] w1 = (Ok r2, w2) ->
  IntoObjectPaths r2 = Ok aps ->
  GetAvailableSSIDs conn devObj st
  = scanEntries conn aps
      (mkQSt w2 (qlog st ++ [QCall devObj NetworkManagerMethodWirelessSSIDScan [ArgOptions ∅];
                             QSleep time_Second;
                             QCall devObj NetworkManagerMethodGetSSIDs []]))
  /\ (forall e, fst (GetAvailableSSIDs conn devObj st) <> Fail e)
  /\ forall out st',
       GetAvailableSSIDs conn devObj st = (Val out, st') -> length out = length aps.
Proof.
  intros Hscan Hnone Hlist Haps.
  assert (Hrun : GetAvailableSSIDs conn devObj st
                 = readSSIDs conn 0 aps (replicate (length aps) zeroSSIDInfo)
                     (mkQSt w2 (qlog st
                                ++ [QCall devObj NetworkManagerMethodWirelessSSIDScan
                                      [ArgOptions ∅];
                                    QSleep time_Second;
                                    QCall devObj NetworkManagerMethodGetSSIDs []]))).
  { unfold GetAvailableSSIDs, mbind, Q_bind, call, note. rewrite Hscan. simpl.
    rewrite Hnone. simpl. rewrite Hlist. simpl. rewrite Haps. simpl.
    by rewrite <- !app_assoc. }
  split; [| split].
  - rewrite Hrun.
    rewrite (readSSIDs_scanEntries conn aps [] _). simpl.
    unfold mbind, Q_bind, mret, Q_ret.
    by destruct (scanEntries conn aps _) as [[es | e |] st2].
  - intros e. rewrite Hrun. apply readSSIDs_no_error.
  - intros out st'. rewrite Hrun. intros Hout.
    apply readSSIDs_slots in Hout as [Hlen _]. by rewrite length_replicate in Hlen.
Qed.

Lemma findSSID_none ssid infos :
  (forall si, si ∈ infos -> String.string_of_list_ascii (SSID si) <> ssid) ->
  findSSID ssid infos = None.
Proof.
  induction infos as [|si rest IH]; intros Hall; simpl; [done |].
  rewrite (proj2 (String.eqb_neq _ _)); [| apply Hall, elem_of_cons; by left].
  apply IH. intros s Hs. apply Hall, elem_of_cons. by right.
Qed.

Lemma findSSID_first ssid pre si post :
  (forall s, s ∈ pre -> String.string_of_list_ascii (SSID s) <> ssid) ->
  String.string_of_list_ascii (SSID si) = ssid ->
  findSSID ssid (pre ++ si :: post) = Some (ObjectPath' si).
Proof.
  intros Hpre Hsi. induction pre as [|s pre IH]; simpl.
  - by rewrite (proj2 (String.eqb_eq _ _) Hsi).
  - rewrite (proj2 (String.eqb_neq _ _)); [| apply Hpre, elem_of_cons; by left].
    apply IH. intros s' Hs'. apply Hpre, elem_of_cons. by right.
Qed.

(** X14: ConnectToSSID asks for an activation only for an SSID found by the
    scan.  With no scanned entry of that SSID it fails right after the scan;
    otherwise its next call is AddAndActivateConnection with the settings for
    the SSID and passphrase, the device path, and the path of the first
    scanned entry carrying that SSID, whose bytes are the ones put in the
    settings. *)
Theorem connect_targets_first_scanned_match ssid pass conn devPath
    (st st1 st2 : QSt W) devObj infos :
  GetDeviceObjectFromPath conn devPath st = (Val devObj, st1) ->
  GetAvailableSSIDs conn devObj st1 = (Val infos, st2) ->
  ((forall si, si ∈ infos -> String.string_of_list_ascii (SSID si) <> ssid) ->
   ConnectToSSID ssid pass conn devPath st
   = (Fail (fmt_Errorf ("failed to find SSID matching given " +:+ quote +:+ "%s" +:+ quote)
              [arg_string ssid]), st2))
  /\ forall pre si post nm,
       infos = pre ++ si :: post ->
       (forall s, s ∈ pre -> String.string_of_list_ascii (SSID s) <> ssid) ->
       String.string_of_list_ascii (SSID si) = ssid ->
       ObjectAt conn NetworkManagerInterface NetworkManagerObjectPath = Some nm ->
       (exists after,
           qlog (snd (ConnectToSSID ssid pass conn devPath st))
           = qlog st2
             ++ QCall nm "org.freedesktop.NetworkManager.AddAndActivateConnection"
                  [ArgSettings (getConnectionSettings ssid pass);
                   ArgObjectPath devPath; ArgObjectPath (ObjectPath' si)]
             :: after)
       /\ exists wireless,
            getConnectionSettings ssid pass !! "802-11-wireless" = Some wireless
            /\ wireless !! "ssid" = Some (VariantBytes (SSID si)).
Proof.
  intros Hdev Hscan. split.
  - intros Hnone. unfold ConnectToSSID, mbind, Q_bind, rewrap.
    rewrite Hdev, Hscan. by rewrite (findSSID_none _ _ Hnone).
  - intros pre si post nm -> Hpre Hsi Hnm. split.
    + unfold ConnectToSSID, mbind, Q_bind, rewrap. rewrite Hdev, Hscan.
      rewrite (findSSID_first _ _ _ _ Hpre Hsi). unfold call. rewrite Hnm.
      destruct (Invoke _ _ _ _) as [r w]. simpl.
      destruct (stored IntoTwoObjectPaths r) as [[a d] | err]; simpl.
      * eexists. by rewrite <- app_assoc.
      * by exists [].
    + eexists. split; [reflexivity |].
      rewrite <- Hsi, String.list_ascii_of_string_of_list_ascii. reflexivity.
Qed.

End Queries.


(** ** The query theorems on the scripted bus *)

Section QueryScenarios.
Import dbus queries.

Lemma primary_device_is_first_witness :
  fst (GetPrimaryDevicePath nmBus
         (asking [Ok (AObjectPath "/conn/1"); Ok (AObjectPaths [wlan; "/dev/3"])]))
  = Val wlan
  /\ fst (GetPrimaryDevicePath nmBus
            (asking [Ok (AObjectPath "/conn/1"); Ok (AObjectPaths [])]))
     = Fail (errors_New "no devices are associated with the primary connection").
Proof.
  assert (Hnm : getNetworkManagerObject nmBus
                = Some (mkBusObject nmBus NetworkManagerInterface NetworkManagerObjectPath))
    by reflexivity.
  assert (Hobj : ObjectAt nmBus NetworkManagerInterface "/conn/1"
                 = Some (mkBusObject nmBus NetworkManagerInterface "/conn/1"))
    by reflexivity.
  split.
  - rewrite (@primary_device_is_first _ scriptedBus nmBus
               (asking [Ok (AObjectPath "/conn/1"); Ok (AObjectPaths [wlan; "/dev/3"])])
               _ _ (AObjectPath "/conn/1") [Ok (AObjectPaths [wlan; "/dev/3"])] "/conn/1" _
               [wlan; "/dev/3"] Hnm eq_refl eq_refl Hobj eq_refl).
    reflexivity.
  - rewrite (@primary_device_is_first _ scriptedBus nmBus
               (asking [Ok (AObjectPath "/conn/1"); Ok (AObjectPaths [])])
               _ _ (AObjectPath "/conn/1") [Ok (AObjectPaths [])] "/conn/1" _
               [] Hnm eq_refl eq_refl Hobj eq_refl).
    reflexivity.
Defined.

Lemma scan_reads_each_access_point_witness :
  let get := fun ap =>
    QCall (mkBusObject nmBus NetworkManagerInterface ap)
      "org.freedesktop.DBus.Properties.Get"
      [ArgString "org.freedesktop.NetworkManager.AccessPoint"; ArgString "Ssid"] in
  GetAvailableSSIDs nmBus wlanObj (asking scan)
  = (Val scanned,
     mkQSt []
       [QCall wlanObj NetworkManagerMethodWirelessSSIDScan [ArgOptions ∅];
        QSleep time_Second;
        QCall wlanObj NetworkManagerMethodGetSSIDs [];
        get "/ap/1";
        get "/ap/2";
        QLog "[Warning] Error getting SSID Info: %v"
          [arg_error (errors_New "access point is gone")];
        get "/ap/3"]).
Proof.
  intros get.
  destruct (@scan_reads_each_access_point _ scriptedBus nmBus wlanObj (asking scan)
              ANothing (tail scan) (AObjectPaths ["/ap/1"; "/ap/2"; "/ap/3"])
              (tail (tail scan)) ["/ap/1"; "/ap/2"; "/ap/3"]
              eq_refl eq_refl eq_refl eq_refl) as [Hscan _].
  rewrite Hscan. reflexivity.
Defined.

Lemma connect_targets_first_scanned_match_witness :
  let st := asking (scan ++ [Ok (ATwoObjectPaths "/active/1" wlan)]) in
  fst (ConnectToSSID "cafe" "secret" nmBus wlan st) = Val tt
  /\ (exists after,
         qlog (snd (ConnectToSSID "cafe" "secret" nmBus wlan st))
         = qlog (snd (GetAvailableSSIDs nmBus wlanObj st))
           ++ QCall (mkBusObject nmBus NetworkManagerInterface NetworkManagerObjectPath)
                "org.freedesktop.NetworkManager.AddAndActivateConnection"
                [ArgSettings (getConnectionSettings "cafe" "secret");
                 ArgObjectPath wlan; ArgObjectPath "/ap/3"]
           :: after)
  /\ fst (ConnectToSSID "tower" "secret" nmBus wlan st)
     = Fail (fmt_Errorf ("failed to find SSID matching given " +:+ quote +:+ "%s" +:+ quote)
               [arg_string "tower"]).
Proof.
  intros st.
  assert (Hdev : GetDeviceObjectFromPath nmBus wlan st = (Val wlanObj, st)) by reflexivity.
  assert (Hscan : GetAvailableSSIDs nmBus wlanObj st
                  = (Val scanned, snd (GetAvailableSSIDs nmBus wlanObj st)))
    by reflexivity.
  destruct (connect_targets_first_scanned_match "cafe" "secret" nmBus wlan st st _
              wlanObj scanned Hdev Hscan) as [_ Hfound].
  destruct (connect_targets_first_scanned_match "tower" "secret" nmBus wlan st st _
              wlanObj scanned Hdev Hscan) as [Hmissing _].
  split; [reflexivity |]. split.
  - assert (Hpre : forall s,
               s ∈ [mkSSIDInfo (String.list_ascii_of_string "home") "/ap/1"; zeroSSIDInfo] ->
               String.string_of_list_ascii (SSID s) <> "cafe").
    { intros s Hs. apply elem_of_cons in Hs as [-> | Hs]; [discriminate |].
      apply list_elem_of_singleton in Hs. subst s. discriminate. }
    destruct (Hfound [mkSSIDInfo (String.list_ascii_of_string "home") "/ap/1"; zeroSSIDInfo]
                (mkSSIDInfo (String.list_ascii_of_string "cafe") "/ap/3") []
                (mkBusObject nmBus NetworkManagerInterface NetworkManagerObjectPath)
                eq_refl Hpre eq_refl eq_refl) as [Hcall _].
    exact Hcall.
  - rewrite Hmissing; [reflexivity |].
    intros si Hsi.
    apply elem_of_cons in Hsi as [-> | Hsi]; [discriminate |].
    apply elem_of_cons in Hsi as [-> | Hsi]; [discriminate |].
    apply list_elem_of_singleton in Hsi. subst si. discriminate.
Defined.

End QueryScenarios.


(** ** End to end: from delivered signals to received records *)

Section Delivery.
Import dbus channel network tally systemd.
Context {W : Type} `{Transport W}.

Local Arguments String.eqb : simpl never.
Local Arguments step : simpl never.

(** X15: starting from an idle subscription with nothing queued or put on
    the channel yet, whenever the signal queue and the output channel are
    empty again and no send is pending, the subscriber has received exactly
    the decodings of all the signals delivered, in their order: nothing is
    lost, repeated or reordered. *)
Theorem drained_subscription_received_all ls sub (bus : St W) s' :
  pump sub = AtSelect ->
  queue (sigCh sub) = [] ->
  records sub = [] ->
  run (sub, bus) ls = Some s' ->
  queue (sigCh s'.1) = [] ->
  queue (outCh s'.1) = [] ->
  pending s'.1 = [] ->
  taken s'.1 = omap (decodeStateChange (devPath sub)) (delivered ls).
Proof.
  intros Hpc Hsig Hrec Hrun Hsig' Hout' Hpend'.
  destruct (run_flow ls _ _ Hrun) as (got & Hgot & Hflow). simpl in Hgot, Hflow.
  rewrite Hsig' in Hgot. rewrite Hsig in Hgot. rewrite app_nil_r in Hgot. simpl in Hgot.
  subst got. unfold records in Hflow at 1. rewrite Hout', Hpend', Hrec in Hflow.
  unfold pending in Hflow. rewrite Hpc in Hflow.
  by rewrite !app_nil_r in Hflow.
Qed.

End Delivery.


Section DeliveryScenarios.
Import dbus channel network tally systemd.

Lemma drained_subscription_received_all_witness :
  let ls := [LDeliver (fake.deviceStateChanged fake.device 100 70 0);
             LDeliver (fake.managerStateChanged 70);
             LDeliver (fake.deviceStateChanged fake.device 30 100 39);
             LSelectSignal; LSend; LSelectSignal; LSelectSignal; LTake; LSend; LTake] in
  exists s',
    run (fake.fresh, fake.connected fake.quiet) ls = Some s'
    /\ taken s'.1 = [(100, 70, 0); (30, 100, 39)].
Proof.
  intros ls.
  assert (Hrun : run (fake.fresh, fake.connected fake.quiet) ls
                 = Some (mkSub fake.device fake.bus false (make 20) (make 20) AtSelect 1
                           [(100, 70, 0); (30, 100, 39)],
                         fake.connected fake.quiet)) by reflexivity.
  eexists. split; [exact Hrun |].
  by rewrite (drained_subscription_received_all ls fake.fresh _ _
                eq_refl eq_refl eq_refl Hrun eq_refl eq_refl eq_refl).
Defined.

End DeliveryScenarios.


(** ** When the library closes the signal channel *)

Section ClosedChannel.
Import dbus channel network systemd queries tally closing.
Context {W : Type} `{Transport W}.

Local Arguments String.eqb : simpl never.
Local Arguments step : simpl never.

(** With the timer as the ending, the loop is [waitJobLoop]. *)
Lemma waitJobSelect_timer target signals : forall st : St W,
  waitJobSelect target signals TimerFires st = returned (waitJobLoop target signals st).
Proof.
  induction signals as [|sig rest IH]; intros st; simpl; [done |].
  destruct (String.eqb (Name sig) _); [| apply IH].
  destruct (Body sig) as [|b0 [|b1 [|b2 [|b3 tl]]]];
    try (unfold mbind, M_bind, log_Printf, emit; simpl; apply IH).
  destruct (ifaceEqObjectPath b1 target); [| apply IH].
  by destruct b3.
Qed.

(** With the channel closed before a deciding notification has come, the
    loop ends in the panic, whatever else was received. *)
Lemma waitJobSelect_closed target signals : forall st : St W,
  (forall sig, sig ∈ signals -> ~ decisive target sig) ->
  fst (waitJobSelect target signals ChannelClosed st) = Panic.
Proof.
  induction signals as [|sig rest IH]; intros st Hnone; simpl; [done |].
  assert (Hrest : forall s, s ∈ rest -> ~ decisive target s).
  { intros s Hs. apply Hnone, elem_of_cons. by right. }
  destruct (String.eqb_spec (Name sig) "org.freedesktop.systemd1.Manager.JobRemoved")
    as [Hname | Hname]; [| by apply IH].
  destruct (Body sig) as [|b0 [|b1 [|b2 [|b3 tl]]]] eqn:Hbody; try (by apply IH).
  destruct (ifaceEqObjectPath b1 target) eqn:Hpath; [| by apply IH].
  apply ifaceEqObjectPath_true in Hpath. subst b1.
  exfalso. apply (Hnone sig); [apply elem_of_cons; by left |].
  split; [exact Hname |]. rewrite Hbody. split; [simpl; lia | done].
Qed.

Lemma happenAll_snoc hs h : forall (p p'' : Pumping W),
  happenAll p (hs ++ [h]) = Some p'' <->
  exists p', happenAll p hs = Some p' /\ happen p' h = Some p''.
Proof.
  induction hs as [|h0 rest IH]; intros p p''; simpl.
  - destruct (happen p h) as [p1 |] eqn:Hh.
    + split; [intros [= <-]; by exists p | intros (p' & [= <-] & Hp); congruence].
    + split; [done | intros (p' & [= <-] & Hp); congruence].
  - destruct (happen p h0) as [p1 |]; [apply IH |].
    split; [done | by intros (p' & ? & _)].
Qed.

(** X8: from a running pump (wait group at one, not cancelled, signal
    channel open), along any schedule that may also close the connection from
    elsewhere: Join() can return exactly when the pump has left its loop; the
    pump leaves it either by returning, which happens only after Stop(), or
    by panicking on the nil received from the signal channel, which happens
    only after the connection was closed from elsewhere and needs no Stop();
    either way the deferred Close has run once by then, and not before. *)
Theorem pump_exit_paths hs sub (bus : St W) p' :
  pump sub <> Returned ->
  wg sub = 1%nat ->
  ctxDone sub = false ->
  happenAll (running sub bus) hs = Some p' ->
  (pump (subscription p') = Returned <-> JoinReturns (subscription p') = true)
  /\ (pump (subscription p') = Returned ->
      if panicked p' then closedElsewhere hs = true else stopped hs = true)
  /\ (panicked p' = true -> pump (subscription p') = Returned)
  /\ transport p'
     = (if JoinReturns (subscription p') then conn_Close (conn sub) bus else bus).
Proof.
  intros Hpc Hwg Hctx. revert p'.
  pose (K := fun (hs : list Happening) (p : Pumping W) =>
               conn (subscription p) = conn sub
               /\ (ctxDone (subscription p) = true -> stopped hs = true)
               /\ ((pump (subscription p) = Returned /\ wg (subscription p) = 0%nat
                    /\ transport p = conn_Close (conn sub) bus
                    /\ (if panicked p then closedElsewhere hs = true
                        else ctxDone (subscription p) = true))
                   \/ (pump (subscription p) <> Returned /\ wg (subscription p) = 1%nat
                       /\ transport p = bus /\ panicked p = false
                       /\ (sigChClosed p = true -> closedElsewhere hs = true)))).
  assert (Hinv : forall p', happenAll (running sub bus) hs = Some p' -> K hs p').
  { induction hs as [|h hs IH] using rev_ind; intros p'.
    - intros [= <-]. unfold K, running. simpl. split; [done |].
      split; [by rewrite Hctx |]. right. by repeat split.
    - intros Hrun. apply happenAll_snoc in Hrun as (p1 & Hrun & Hh).
      specialize (IH _ Hrun). unfold K in *. unfold stopped, closedElsewhere in *.
      rewrite !existsb_app. simpl. rewrite !orb_false_r.
      destruct IH as (Hc & Hstop & Hcases).
      destruct p1 as [sb b closed crashed]. simpl in *.
      unfold happen in Hh. simpl in Hh.
      destruct crashed; [done |].
      destruct h as [l | |].
      + destruct (closed && _) eqn:Hopen; [done |].
        destruct (step (sb, b) l) as [[sb' b'] |] eqn:Hstep; [| done].
        injection Hh as <-. simpl. unfold step in Hstep.
        destruct l; repeat case_match; simplify_eq; simpl in *;
          (split; [done |]);
          (split; [first [done | by intros; apply orb_true_iff; eauto
                          | by intros Hd; rewrite (Hstop Hd)] |]);
          destruct Hcases as [(? & ? & ? & ?) | (? & ? & ? & ? & Hcl)];
          simplify_eq; simpl in *;
          try (left; repeat split; simpl; congruence);
          try (right; repeat split; simpl; try congruence;
               intros Hd; rewrite ?orb_true_r in *; rewrite ?orb_false_r in *;
               by rewrite ?Hcl).
        match goal with Hw : wg _ = 1%nat |- _ =>
          left; rewrite Hc, Hw; by repeat split end.
      + destruct closed; [done |]. injection Hh as <-. simpl.
        split; [done |]. split; [intros Hd; by rewrite (Hstop Hd) |].
        destruct Hcases as [(? & ? & ? & ?) | (? & ? & ? & ? & Hcl)].
        * left. by repeat split.
        * right. repeat split; try done. intros _. apply orb_true_r.
      + destruct (pump sb) eqn:Hp; try done.
        destruct (queue (sigCh sb)); [| done].
        destruct closed; [| done]. injection Hh as <-. simpl.
        split; [done |]. split; [intros Hd; by rewrite (Hstop Hd) |].
        destruct Hcases as [(? & ? & ? & ?) | (? & Hw & Hb & ? & Hcl)]; [congruence |].
        left. rewrite Hc, Hw, Hb. repeat split. by rewrite Hcl. }
  intros p' Hrun. destruct (Hinv _ Hrun) as (_ & Hstop & Hcases).
  destruct Hcases as [(Hret & Hw & Hbus & Hwhy) | (Hgo & Hw & Hbus & Hno & _)];
    unfold JoinReturns; rewrite Hw; simpl.
  - repeat split; try done.
    intros _. destruct (panicked p'); [done | by apply Hstop].
  - rewrite Hno. repeat split; try done.
Qed.

End ClosedChannel.


(** ** The closed channel on the fake bus *)

Section ClosedChannelScenarios.
Import dbus channel network systemd queries closing fake.

(** C5 when the connection is closed during the wait: StartService("demo")
    on an inactive unit has sent StartUnit and holds the token /job/7; one
    notification for another job is received, then the signal channel is
    closed before the timer fires.  The loop of waitJobComplete ends in the
    nil pointer panic, where the specification has a timeout error; had
    the timer fired instead it would have returned "operation timed out". *)
Theorem wait_panics_when_channel_closes :
  let down := demo "inactive" "active" [] in
  let received := [jobRemoved "/job/9" "other" "done"] in
  doStartService systemdObj "demo" (checked down) = (Ok "/job/7", startRequested down)
  /\ waitJobSelect "/job/7" received ChannelClosed (startRequested down)
     = (Panic, startRequested down)
  /\ waitJobSelect "/job/7" received TimerFires (startRequested down)
     = (Fail (errors_New "operation timed out"), startRequested down).
Proof. repeat split; reflexivity. Qed.

Lemma pump_exit_paths_witness :
  let hs := [HStep (LDeliver (deviceStateChanged device 100 70 0));
             HStep LSelectSignal; HStep LSend; HConnClosed; HSelectNil] in
  exists p',
    happenAll (running fresh (connected quiet)) hs = Some p'
    /\ stopped hs = false
    /\ panicked p' = true
    /\ closedElsewhere hs = true
    /\ JoinReturns (subscription p') = true
    /\ transport p' = conn_Close bus (connected quiet).
Proof.
  intros hs.
  assert (Hrun : happenAll (running fresh (connected quiet)) hs
                 = Some (mkPumping
                           (mkSub device bus false (make 20) (mkChan 20 [(100, 70, 0)])
                              Returned 0 [])
                           (conn_Close bus (connected quiet)) true true)) by reflexivity.
  assert (Hpc : pump fresh <> Returned) by discriminate.
  destruct (pump_exit_paths hs fresh (connected quiet) _ Hpc eq_refl eq_refl Hrun)
    as (Hjoin & Hwhy & _ & Hbus).
  eexists. split; [exact Hrun |]. split; [reflexivity |]. split; [reflexivity |].
  split; [exact (Hwhy eq_refl) |]. split; [by apply Hjoin | exact Hbus].
Defined.

End ClosedChannelScenarios.
